(** * The release orchestrator [dev/release.py]

    A shallow embedding of the release script and the properties of its
    workflow.  The script is a straight line of shell-outs, prompts and
    early exits, so it is embedded as a computation in a small monad that
    records every external interaction (echo, prompt, spawned process) in
    a trace and ends in a return, a [sys.exit] or an uncaught exception.

    Conventions.  The script is read as Python 3.  A Python [str] is
    represented by the [string] of its UTF-8 encoding, a [bytes] object by
    the [string] of its bytes.  Everything the script obtains from outside
    (the clock, the answers typed at prompts, the exit code and output of
    each spawned process) comes from a [World], whose answers may depend on
    all that happened before. *)

From Stdlib Require Import String Ascii List Bool ZArith NArith Lia.
Import ListNotations.
Open Scope list_scope.
Open Scope string_scope.

(** ** Python string and bytes operations used by the script *)

Module Py.

Definition nl : string := String (ascii_of_nat 10) EmptyString.
Definition squote : string := String (ascii_of_nat 39) EmptyString.
Definition backslash : string := String (ascii_of_nat 92) EmptyString.

(** [s.endswith(suffix)]: some tail of [s] is [suffix]. *)
Fixpoint endswith (s suffix : string) : bool :=
  String.eqb s suffix ||
  match s with
  | EmptyString => false
  | String _ rest => endswith rest suffix
  end.

(** [fmt % args] for the one conversion the script uses, [%s], with the
    arguments already converted by [str].  (Python raises [TypeError] when
    the number of arguments and of conversions differ; every use in the
    script has them equal.) *)
Fixpoint percent (fmt : string) (args : list string) : string :=
  match fmt with
  | EmptyString => EmptyString
  | String c rest =>
      match rest with
      | EmptyString => String c EmptyString
      | String d rest' =>
          if (Ascii.eqb c "%" && Ascii.eqb d "s")%bool then
            match args with
            | a :: args' => a ++ percent rest' args'
            | [] => percent rest' []
            end
          else String c (percent rest args)
      end
  end.

(** [sep.join(l)]. *)
Definition join (sep : string) (l : list string) : string := String.concat sep l.

(** ASCII whitespace, as [bytes.strip()] understands it. *)
Definition bytes_isspace (c : ascii) : bool :=
  let n := N_of_ascii c in
  (N.eqb n 32 || ((9 <=? n) && (n <=? 13)))%N%bool.

Fixpoint lstrip (b : string) : string :=
  match b with
  | EmptyString => EmptyString
  | String c rest => if bytes_isspace c then lstrip rest else b
  end.

Fixpoint rstrip (b : string) : string :=
  match b with
  | EmptyString => EmptyString
  | String c rest =>
      match rstrip rest with
      | EmptyString => if bytes_isspace c then EmptyString else String c EmptyString
      | r => String c r
      end
  end.

(** [b.strip()] on bytes. *)
Definition strip (b : string) : string := lstrip (rstrip b).

(** *** [str(b)] for a bytes object: its [repr], [b'...']. *)

Definition hexdigit (n : N) : ascii :=
  if (n <? 10)%N then ascii_of_N (48 + n) else ascii_of_N (87 + n).

Fixpoint contains (c : ascii) (s : string) : bool :=
  match s with
  | EmptyString => false
  | String d rest => Ascii.eqb c d || contains c rest
  end.

Definition repr_byte (quote c : ascii) : string :=
  let n := N_of_ascii c in
  if (Ascii.eqb c quote || N.eqb n 92)%bool then backslash ++ String c EmptyString
  else if N.eqb n 9 then backslash ++ "t"
  else if N.eqb n 10 then backslash ++ "n"
  else if N.eqb n 13 then backslash ++ "r"
  else if ((n <? 32) || (127 <=? n))%N%bool then
    backslash ++ "x" ++ String (hexdigit (n / 16)) (String (hexdigit (n mod 16)) EmptyString)
  else String c EmptyString.

Fixpoint repr_body (quote : ascii) (b : string) : string :=
  match b with
  | EmptyString => EmptyString
  | String c rest => repr_byte quote c ++ repr_body quote rest
  end.

Definition bytes_repr (b : string) : string :=
  let quote :=
    if (contains (ascii_of_nat 39) b && negb (contains (ascii_of_nat 34) b))%bool
    then ascii_of_nat 34 else ascii_of_nat 39 in
  "b" ++ String quote (repr_body quote b ++ String quote EmptyString).

(** [repr] of a list of plain strings (no quotes, backslashes or control
    characters in them), as [%s] prints the list of publish modes. *)
Definition repr_list (l : list string) : string :=
  "[" ++ join ", " (map (fun s => squote ++ s ++ squote) l) ++ "]".

(** *** [b.decode()]: strict UTF-8 *)

Definition bytes_of (s : string) : list N := map N_of_ascii (list_ascii_of_string s).
Definition of_bytes (l : list N) : string := string_of_list_ascii (map ascii_of_N l).

Definition cont (b : N) : bool := ((128 <=? b) && (b <=? 191))%N%bool.

Definition lead3_ok (b0 b1 : N) : bool :=
  ((N.eqb b0 224 && (160 <=? b1) && (b1 <=? 191))
   || ((225 <=? b0) && (b0 <=? 236) && cont b1)
   || (N.eqb b0 237 && (128 <=? b1) && (b1 <=? 159))
   || ((238 <=? b0) && (b0 <=? 239) && cont b1))%N%bool.

Definition lead4_ok (b0 b1 : N) : bool :=
  ((N.eqb b0 240 && (144 <=? b1) && (b1 <=? 191))
   || ((241 <=? b0) && (b0 <=? 243) && cont b1)
   || (N.eqb b0 244 && (128 <=? b1) && (b1 <=? 143)))%N%bool.

Fixpoint utf8_valid (l : list N) : bool :=
  match l with
  | [] => true
  | b0 :: l1 =>
      if (b0 <? 128)%N then utf8_valid l1
      else
        match l1 with
        | [] => false
        | b1 :: l2 =>
            if ((194 <=? b0) && (b0 <=? 223))%N%bool then cont b1 && utf8_valid l2
            else
              match l2 with
              | [] => false
              | b2 :: l3 =>
                  if lead3_ok b0 b1 then cont b2 && utf8_valid l3
                  else
                    match l3 with
                    | [] => false
                    | b3 :: l4 => lead4_ok b0 b1 && cont b2 && cont b3 && utf8_valid l4
                    end
              end
        end
  end.

(** [None] stands for [UnicodeDecodeError]. *)
Definition decode (b : string) : option string :=
  if utf8_valid (bytes_of b) then Some b else None.

(** *** [s.split()]: split at runs of whitespace characters *)

(** Length in bytes of the whitespace character ([str.isspace]) encoded
    at the head of [l]; 0 when the head is not whitespace. *)
Definition ws_len (l : list N) : nat :=
  match l with
  | b0 :: l1 =>
      if (N.eqb b0 32 || ((9 <=? b0) && (b0 <=? 13)) || ((28 <=? b0) && (b0 <=? 31)))%N%bool
      then 1%nat
      else
        match l1 with
        | b1 :: l2 =>
            if (N.eqb b0 194 && (N.eqb b1 133 || N.eqb b1 160))%N%bool then 2%nat
            else
              match l2 with
              | b2 :: _ =>
                  if ((N.eqb b0 225 && N.eqb b1 154 && N.eqb b2 128)
                      || (N.eqb b0 226 && N.eqb b1 128 &&
                          (((128 <=? b2) && (b2 <=? 138))
                           || N.eqb b2 168 || N.eqb b2 169 || N.eqb b2 175))
                      || (N.eqb b0 226 && N.eqb b1 129 && N.eqb b2 159)
                      || (N.eqb b0 227 && N.eqb b1 128 && N.eqb b2 128))%N%bool
                  then 3%nat else 0%nat
              | [] => 0%nat
              end
        | [] => 0%nat
        end
  | [] => 0%nat
  end.

Definition flush (cur : list N) : list string :=
  match cur with
  | [] => []
  | _ => [of_bytes cur]
  end.

Fixpoint split_go (l : list N) (skip : nat) (cur : list N) : list string :=
  match l with
  | [] => flush cur
  | b :: rest =>
      match skip with
      | S k => split_go rest k cur
      | O =>
          match ws_len l with
          | O => split_go rest 0 (cur ++ [b])%list
          | S k => (flush cur ++ split_go rest k [])%list
          end
      end
  end.

Definition split (s : string) : list string := split_go (bytes_of s) 0 [].

End Py.

(** ** The outside world and the effects of the script *)

(** What can be observed of a run, in the order it happens.  A spawned
    process either could not be started ([None], an [OSError] in Python)
    or ended with an exit code and some standard output.  A prompt is
    answered yes or no, or is interrupted ([None]: end of input or Ctrl-C,
    which [click] turns into [Abort]). *)
Inductive event : Type :=
| Echo (text : string)
| Confirm (prompt : string) (answer : option bool)
| Spawn (argv : list string) (result : option (Z * string)).

Record World : Type := {
  (** [datetime.now().strftime("%Y-%m-%dT%H-%M-%S")] at the start of the run *)
  now : string;
  (** what the operator answers to [click.confirm], given the history *)
  confirm_answer : list event -> string -> option bool;
  (** how a spawned command ends, given the history *)
  spawn_result : list event -> list string -> option (Z * string)
}.

Inductive exn : Type :=
| CalledProcessError (returncode : Z) (cmd : list string)
| OSError (cmd : list string)
| UnicodeDecodeError
| KeyError (key : string)
| Abort.

Inductive outcome (A : Type) : Type :=
| Ret (a : A)
| Exit (code : Z)
| Raise (e : exn).
Arguments Ret {A} a.
Arguments Exit {A} code.
Arguments Raise {A} e.

(** A computation reads the world and the history so far, and yields the
    events it adds and how it ends. *)
Definition M (A : Type) : Type := World -> list event -> list event * outcome A.

Definition ret {A} (a : A) : M A := fun _ _ => ([], Ret a).

Definition bind {A B} (m : M A) (f : A -> M B) : M B :=
  fun w h =>
    let '(e1, o1) := m w h in
    match o1 with
    | Ret a => let '(e2, o2) := f a w (h ++ e1)%list in ((e1 ++ e2)%list, o2)
    | Exit c => (e1, Exit c)
    | Raise e => (e1, Raise e)
    end.

Notation "x <- c1 ;; c2" := (bind c1 (fun x => c2))
  (at level 61, c1 at next level, right associativity).
Notation "c1 ;; c2" := (bind c1 (fun _ => c2))
  (at level 61, right associativity).

Definition raise {A} (e : exn) : M A := fun _ _ => ([], Raise e).

(** [sys.exit(code)] *)
Definition sys_exit {A} (code : Z) : M A := fun _ _ => ([], Exit code).

(** [if c: body] *)
Definition when (c : bool) (body : M unit) : M unit := if c then body else ret tt.

(** [for x in l: body(x)] *)
Fixpoint for_each {A} (l : list A) (body : A -> M unit) : M unit :=
  match l with
  | [] => ret tt
  | x :: rest => body x ;; for_each rest body
  end.

(** [click.style(x, underline=True)] *)
Definition style_underline (x : string) : string :=
  String (ascii_of_nat 27) "[4m" ++ x ++ String (ascii_of_nat 27) "[0m".

Definition click_echo (x : string) : M unit := fun _ _ => ([Echo x], Ret tt).

Definition click_confirm (prompt : string) : M bool :=
  fun w h =>
    ([Confirm prompt (confirm_answer w h prompt)],
     match confirm_answer w h prompt with
     | Some b => Ret b
     | None => Raise Abort
     end).

(** [subprocess.check_call(argv)] *)
Definition check_call (argv : list string) : M Z :=
  fun w h =>
    ([Spawn argv (spawn_result w h argv)],
     match spawn_result w h argv with
     | None => Raise (OSError argv)
     | Some (rc, _) => if Z.eqb rc 0 then Ret 0%Z else Raise (CalledProcessError rc argv)
     end).

(** [subprocess.check_output(argv)] *)
Definition check_output (argv : list string) : M string :=
  fun w h =>
    ([Spawn argv (spawn_result w h argv)],
     match spawn_result w h argv with
     | None => Raise (OSError argv)
     | Some (rc, out) => if Z.eqb rc 0 then Ret out else Raise (CalledProcessError rc argv)
     end).

(** [datetime.now().strftime("%Y-%m-%dT%H-%M-%S")] *)
Definition datetime_now_strftime : M string := fun w _ => ([], Ret (now w)).

(** [b.decode()] as a step of the script *)
Definition decode (b : string) : M string :=
  match Py.decode b with
  | Some s => ret s
  | None => raise UnicodeDecodeError
  end.

(** ** The script *)

Definition DATABRICKS_REMOTE : string := "git@github.com:graphframes/graphframes.git".

Definition PUBLISH_MODES : list (string * string) :=
  [("local", "publishLocal"); ("m2", "publishM2"); ("spark-package-publish", "spDist")].

Definition PUBLISH_DOCS_DEFAULT : bool := true.

Definition WORKING_BRANCH : string := "WORKING_BRANCH_RELEASE_%s_@%s".
Definition WORKING_DOCS_BRANCH : string := "zWORKING_BRANCH_DOCS_%s_@%s".
Definition RELEASE_TAG : string := "v%s".

Definition spark_version_default : list string := ["3.0.3"; "3.1.3"; "3.2.3"; "3.3.2"].

(** [list(d.keys())], [k in d] and [d[k]] on a dict kept in insertion order *)
Definition keys (d : list (string * string)) : list string := map fst d.

Definition dict_in (k : string) (d : list (string * string)) : bool :=
  existsb (String.eqb k) (keys d).

Fixpoint dict_get (d : list (string * string)) (k : string) : option string :=
  match d with
  | [] => None
  | (k', v) :: rest => if String.eqb k k' then Some v else dict_get rest k
  end.

Definition getitem (d : list (string * string)) (k : string) : M string :=
  match dict_get d k with
  | Some v => ret v
  | None => raise (KeyError k)
  end.

(** [a in l] on a list of strings *)
Definition list_in (a : string) (l : list string) : bool := existsb (String.eqb a) l.

Definition prominentPrint (x : string) : M unit := click_echo (style_underline x).

Definition verify (prompt : string) (interactive : bool) : M bool :=
  if negb interactive then ret true
  else click_confirm prompt.

(** Lines 53-54 of [main], the normalisation of the next version:
    [if not next_version.endswith("SNAPSHOT"): next_version += "-SNAPSHOT"] *)
Definition normalize_next_version (next_version : string) : string :=
  if negb (Py.endswith next_version "SNAPSHOT") then next_version ++ "-SNAPSHOT"
  else next_version.

Definition main (release_version next_version publish_to : string) (no_prompt : bool)
    (git_remote : string) (publish_docs : bool) (spark_version : list string) : M unit :=
  let interactive := negb no_prompt in

  time <- datetime_now_strftime ;;
  when (negb (dict_in publish_to PUBLISH_MODES)) (
    let modes := keys PUBLISH_MODES in
    prominentPrint (Py.percent "Unknown publish target, --publish-to should be one of: %s."
                               [Py.repr_list modes]) ;;
    sys_exit 1) ;;

  let next_version := normalize_next_version next_version in

  ok <- verify (Py.percent ("Publishing version: %s" ++ Py.nl ++
                            "Next version will be: %s" ++ Py.nl ++
                            "Continue?") [release_version; next_version]) interactive ;;
  when (negb ok) (sys_exit 1) ;;

  out <- check_output ["git"; "rev-parse"; "--abbrev-ref"; "HEAD"] ;;
  let current_branch := Py.strip out in
  when (String.eqb current_branch "HEAD") (
    prominentPrint "Cannot build from detached head state. Please make a branch." ;;
    sys_exit 1) ;;
  when (negb (String.eqb current_branch "master")) (
    ok <- verify "You're not on the master branch do you want to continue?" interactive ;;
    when (negb ok) (sys_exit 1)) ;;

  uncommitted_changes <- check_output ["git"; "diff"; "--stat"] ;;
  when (negb (String.eqb uncommitted_changes "")) (
    prominentPrint ("There seem to be uncommitted changes on your current branch. Please commit or " ++
                    "stash them and try again.") ;;
    (* the diff is a bytes object, which [click.style] turns into text with [str] *)
    prominentPrint (Py.bytes_repr uncommitted_changes) ;;
    sys_exit 1) ;;

  let working_branch := Py.percent WORKING_BRANCH [release_version; time] in
  let gh_pages_branch := Py.percent WORKING_DOCS_BRANCH [release_version; time] in

  let release_tag := Py.percent RELEASE_TAG [release_version] in
  let target_tags := [release_tag] in

  out <- check_output ["git"; "tag"] ;;
  decoded <- decode out ;;
  let existing_tags := Py.split decoded in
  let conflict_tags := filter (fun a => list_in a existing_tags) target_tags in
  when (negb (Nat.eqb (List.length conflict_tags) 0)) (
    let msg := "The following tags already exist:" ++ Py.nl ++
               "    %s" ++ Py.nl ++
               "Please delete them and try." in
    let msg := Py.percent msg [Py.join (Py.nl ++ "    ") conflict_tags] in
    prominentPrint msg ;;
    sys_exit 1) ;;

  prominentPrint "Creating working branch for this release." ;;
  check_call ["git"; "checkout"; "-b"; working_branch] ;;

  prominentPrint "Creating release tag and updating snapshot version." ;;
  let update_version := Py.percent "release release-version %s next-version %s"
                                   [release_version; next_version] in
  check_call ["./build/sbt"; update_version] ;;

  prominentPrint "Building and testing with sbt." ;;
  check_call ["git"; "checkout"; release_tag] ;;

  publish_target <- getitem PUBLISH_MODES publish_to ;;
  for_each spark_version (fun version =>
    check_call ["./build/sbt"; Py.percent "-Dspark.version=%s" [version]; "clean"; publish_target] ;;
    ret tt) ;;

  prominentPrint (Py.percent "Updating local branch: %s" [Py.bytes_repr current_branch]) ;;
  check_call ["git"; "checkout"; current_branch] ;;
  check_call ["git"; "merge"; "--ff"; working_branch] ;;
  check_call ["git"; "branch"; "-d"; working_branch] ;;

  prominentPrint "Local branch updated" ;;
  ok <- verify (Py.percent "Would you like to push local branch & version tag to remote: %s?"
                           [git_remote]) interactive ;;
  when ok (
    check_call ["git"; "push"; git_remote; current_branch] ;;
    check_call ["git"; "push"; git_remote; release_tag] ;;
    ret tt) ;;

  prominentPrint "Building release docs" ;;

  ok <- (if publish_docs then verify "Would you like to build release docs?" interactive
         else ret false) ;;
  when (negb ok) (
    (* All done, exit happy *)
    sys_exit 0) ;;

  check_call ["git"; "checkout"; "-b"; gh_pages_branch; release_tag] ;;
  check_call ["./dev/build-docs.sh"] ;;

  let commit_message := Py.percent "Build docs for release %s." [release_version] in
  check_call ["git"; "add"; "-f"; "docs/_site"] ;;
  check_call ["git"; "commit"; "-m"; commit_message] ;;
  let msg := "Would you like to push docs branch to %s and update gh-pages branch?" in
  let msg := Py.percent msg [git_remote] in
  ok <- verify msg interactive ;;
  when ok (
    check_call ["git"; "push"; git_remote; gh_pages_branch] ;;
    check_call ["git"; "push"; "-f"; git_remote; gh_pages_branch ++ ":gh-pages"] ;;
    ret tt) ;;

  check_call ["git"; "checkout"; current_branch] ;;
  check_call ["git"; "branch"; "-D"; gh_pages_branch] ;;
  ret tt.

(** ** Running the script as a process *)

(** The exit status of the process: [main] runs under [click], which
    exits with 0 when the command returns; [sys.exit(n)] exits with [n];
    [Abort] and every uncaught exception end the interpreter with 1. *)
Definition exit_status (o : outcome unit) : Z :=
  match o with
  | Ret _ => 0
  | Exit code => code
  | Raise _ => 1
  end%Z.

Record Args : Type := {
  release_version : string;
  next_version : string;
  publish_to : string;
  no_prompt : bool;
  git_remote : string;
  publish_docs : bool;
  spark_version : list string
}.

Definition run (w : World) (a : Args) : list event * outcome unit :=
  main (release_version a) (next_version a) (publish_to a) (no_prompt a)
       (git_remote a) (publish_docs a) (spark_version a) w [].

Definition trace (w : World) (a : Args) : list event := fst (run w a).
Definition status (w : World) (a : Args) : Z := exit_status (snd (run w a)).

(** ** Scripted worlds, for concrete runs *)

Definition same_argv (a b : list string) : bool :=
  if list_eq_dec string_dec a b then true else false.

(** A repository whose three queries answer [branch], [diff] and [tags],
    where every other command succeeds silently, and an operator who
    answers the prompt [q] with [answer q]. *)
Definition scripted (t branch diff tags : string) (answer : string -> option bool) : World :=
  {| now := t;
     confirm_answer := fun _ q => answer q;
     spawn_result := fun _ argv =>
       if same_argv argv ["git"; "rev-parse"; "--abbrev-ref"; "HEAD"] then Some (0%Z, branch)
       else if same_argv argv ["git"; "diff"; "--stat"] then Some (0%Z, diff)
       else if same_argv argv ["git"; "tag"] then Some (0%Z, tags)
       else Some (0%Z, "") |}.

(** Nobody at the terminal. *)
Definition nobody : string -> option bool := fun _ => None.

(** An operator who says yes to every prompt but [q]. *)
Definition accepts_all_but (q : string) : string -> option bool :=
  fun prompt => Some (negb (String.eqb prompt q)).

(** The end-to-end scenario of the specification: release 1.2.3, next
    version 1.3.0, published locally, no prompts, on a clean master. *)
Definition scenario_args : Args :=
  {| release_version := "1.2.3"; next_version := "1.3.0"; publish_to := "local";
     no_prompt := true; git_remote := DATABRICKS_REMOTE;
     publish_docs := PUBLISH_DOCS_DEFAULT; spark_version := spark_version_default |}.

Definition interactive_args : Args :=
  {| release_version := "1.2.3"; next_version := "1.3.0"; publish_to := "local";
     no_prompt := false; git_remote := DATABRICKS_REMOTE;
     publish_docs := PUBLISH_DOCS_DEFAULT; spark_version := spark_version_default |}.

Definition unknown_target_args : Args :=
  {| release_version := "1.2.3"; next_version := "1.3.0"; publish_to := "maven-central";
     no_prompt := true; git_remote := DATABRICKS_REMOTE;
     publish_docs := PUBLISH_DOCS_DEFAULT; spark_version := spark_version_default |}.

(** A clean master without the tag [v1.2.3]. *)
Definition clean_master (answer : string -> option bool) : World :=
  scripted "2023-04-01T12-00-00" ("master" ++ Py.nl) "" ("v1.2.2" ++ Py.nl) answer.

Definition scenario_world : World := clean_master nobody.

(** A working tree with uncommitted changes. *)
Definition dirty_world : World :=
  scripted "2023-04-01T12-00-00" ("master" ++ Py.nl) (" README.md | 2 +-" ++ Py.nl)
           ("v1.2.2" ++ Py.nl) nobody.

(** A repository that already has the tag [v1.2.3]. *)
Definition tagged_world : World :=
  scripted "2023-04-01T12-00-00" ("master" ++ Py.nl) ""
           ("v1.2.2" ++ Py.nl ++ "v1.2.3" ++ Py.nl) nobody.

(** A detached head. *)
Definition detached_world : World :=
  scripted "2023-04-01T12-00-00" ("HEAD" ++ Py.nl) "" ("v1.2.2" ++ Py.nl) nobody.

(** A clean branch [dev]. *)
Definition dev_world (answer : string -> option bool) : World :=
  scripted "2023-04-01T12-00-00" ("dev" ++ Py.nl) "" ("v1.2.2" ++ Py.nl) answer.

(** ** Events of interest *)

Open Scope list_scope.

Fixpoint argv_eqb (a b : list string) : bool :=
  match a, b with
  | [], [] => true
  | x :: a', y :: b' => String.eqb x y && argv_eqb a' b'
  | _, _ => false
  end.

(** The event is a run of exactly the command [argv]. *)
Definition spawns (argv : list string) (e : event) : bool :=
  match e with
  | Spawn a _ => argv_eqb a argv
  | _ => false
  end.

(** The event is the prompt [q], whatever the answer. *)
Definition prompts (q : string) (e : event) : bool :=
  match e with
  | Confirm q' _ => String.eqb q' q
  | _ => false
  end.

Definition is_confirm (e : event) : bool :=
  match e with
  | Confirm _ _ => true
  | _ => false
  end.

Definition is_spawn (e : event) : bool :=
  match e with
  | Spawn _ _ => true
  | _ => false
  end.

(** The event is the echo of [x] by [prominentPrint]. *)
Definition echoes (x : string) (e : event) : bool :=
  match e with
  | Echo y => String.eqb y (style_underline x)
  | _ => false
  end.

(** The event is a [git checkout -b ...], the only way the script creates
    a branch. *)
Definition creates_branch (e : event) : bool :=
  match e with
  | Spawn (a :: b :: c :: _) _ =>
      String.eqb a "git" && String.eqb b "checkout" && String.eqb c "-b"
  | _ => false
  end.

Definition git_rev_parse : list string := ["git"; "rev-parse"; "--abbrev-ref"; "HEAD"].
Definition git_diff : list string := ["git"; "diff"; "--stat"].
Definition git_tag : list string := ["git"; "tag"].

(** The prompts of the script, as [main] builds them. *)
Definition release_prompt (a : Args) : string :=
  Py.percent ("Publishing version: %s" ++ Py.nl ++
              "Next version will be: %s" ++ Py.nl ++
              "Continue?")%string
             [release_version a; normalize_next_version (next_version a)].
Definition master_prompt : string :=
  "You're not on the master branch do you want to continue?".
Definition docs_prompt : string := "Would you like to build release docs?".

(** The release tag of a run. *)
Definition release_tag (a : Args) : string := Py.percent RELEASE_TAG [release_version a].

(** Neither a run of [argv] nor the creation of a branch. *)
Definition quiet_about (argv : list string) (e : event) : bool :=
  negb (spawns argv e) && negb (creates_branch e).

(** The tags the script knows of, from the output of [git tag]:
    [out.decode().split()]; [None] when the output does not decode. *)
Definition known_tags (out : string) : option (list string) :=
  option_map Py.split (Py.decode out).

(** [s] ends in [suffix]. *)
Definition ends_in (s suffix : string) : Prop := exists p, s = (p ++ suffix)%string.

(** The branch names of a run, as [main] derives them from the release
    identifier and the timestamp. *)
Definition working_branch (w : World) (a : Args) : string :=
  Py.percent WORKING_BRANCH [release_version a; now w].
Definition docs_branch (w : World) (a : Args) : string :=
  Py.percent WORKING_DOCS_BRANCH [release_version a; now w].

(** The branch that the event creates, if it creates one. *)
Definition created_branch (e : event) : option string :=
  match e with
  | Spawn (a :: b :: c :: name :: _) _ =>
      if (String.eqb a "git" && String.eqb b "checkout" && String.eqb c "-b")%bool
      then Some name else None
  | _ => None
  end.

(** The event creates no branch, or the working branch, or the docs
    branch of the run. *)
Definition names_branch (w : World) (a : Args) (e : event) : bool :=
  match created_branch e with
  | None => true
  | Some name => String.eqb name (working_branch w a) || String.eqb name (docs_branch w a)
  end.

(** Something went wrong at this event: a command failed or could not be
    started, a precondition of the release does not hold, a prompt was
    interrupted, or a mandatory confirmation was declined. *)
Definition trouble (a : Args) (e : event) : bool :=
  match e with
  | Echo _ => false
  | Confirm _ None => true
  | Confirm q (Some b) =>
      negb b && (String.eqb q (release_prompt a) || String.eqb q master_prompt)
  | Spawn _ None => true
  | Spawn argv (Some (rc, out)) =>
      negb (rc =? 0)%Z
      || (argv_eqb argv git_rev_parse && String.eqb (Py.strip out) "HEAD")
      || (argv_eqb argv git_diff && negb (String.eqb out ""))
      || (argv_eqb argv git_tag &&
          match known_tags out with
          | Some tags => list_in (release_tag a) tags
          | None => true
          end)
  end.

(** A command that failed or could not be started. *)
Definition failed_spawn (e : event) : bool :=
  match e with
  | Spawn _ (Some (rc, _)) => negb (rc =? 0)%Z
  | Spawn _ None => true
  | _ => false
  end.

(** ** Reasoning about runs *)

(** [wp m w h Q]: the events [m] adds and the way it ends satisfy [Q]. *)
Definition wp {A} (m : M A) (w : World) (h : list event)
    (Q : list event -> outcome A -> Prop) : Prop :=
  Q (fst (m w h)) (snd (m w h)).

(** [emits p m]: whatever the world does, [m] adds only events that pass [p]. *)
Definition emits {A} (p : event -> bool) (m : M A) : Prop :=
  forall w h, forallb p (fst (m w h)) = true.

Definition failed {A} (o : outcome A) : Prop :=
  match o with
  | Ret _ => False
  | _ => True
  end.

(** Retyping of an outcome that is not a return. *)
Definition carry {A B} (o : outcome A) : outcome B :=
  match o with
  | Ret _ => Raise Abort
  | Exit c => Exit c
  | Raise e => Raise e
  end.

(** ** Further events and properties of runs *)

(** No command of the stretch failed. *)
Definition clean (ev : list event) : bool := forallb (fun e => negb (failed_spawn e)) ev.

(** The stretch ends with its one failed command, and the failure is raised. *)
Definition stopped_at_failure {A} (ev : list event) (o : outcome A) : Prop :=
  exists pre e x,
    ev = pre ++ [e] /\ clean pre = true /\ failed_spawn e = true /\ o = Raise x.

(** [fail_fast m]: in [m] a command that fails is the last thing that
    happens, and it ends [m] with an exception. *)
Definition fail_fast {A} (m : M A) : Prop :=
  forall w h,
    clean (fst (m w h)) = true \/ stopped_at_failure (fst (m w h)) (snd (m w h)).

(** The world [w] but for the command [bad], which ends with code [rc]. *)
Definition breaking (bad : list string) (rc : Z) (w : World) : World :=
  {| now := now w;
     confirm_answer := confirm_answer w;
     spawn_result := fun h argv =>
       if same_argv argv bad then Some (rc, ""%string) else spawn_result w h argv |}.

(** The ways a computation stops short of returning. *)
Inductive stop : Type :=
| Exited (code : Z)
| Raised (e : exn).

Definition stop_of {A} (o : outcome A) : option stop :=
  match o with
  | Ret _ => None
  | Exit c => Some (Exited c)
  | Raise e => Some (Raised e)
  end.

(** [ends q m]: when [m] does not return, the way it stops passes [q]. *)
Definition ends {A} (q : stop -> bool) (m : M A) : Prop :=
  forall w h, match stop_of (snd (m w h)) with
              | Some s => q s = true
              | None => True
              end.

(** The exit codes and exceptions that a run can end with: exit 0 or 1,
    a failed command, undecodable output, and, with a prompt, an
    interruption. *)
Definition expected_stop (no_prompt : bool) (s : stop) : bool :=
  match s with
  | Exited c => (c =? 0)%Z || (c =? 1)%Z
  | Raised (CalledProcessError rc _) => negb (rc =? 0)%Z
  | Raised (OSError _) => true
  | Raised UnicodeDecodeError => true
  | Raised (KeyError _) => false
  | Raised Abort => negb no_prompt
  end.

(** The command line of an event ([[]] when it is not a command). *)
Definition spawn_argv (e : event) : list string :=
  match e with
  | Spawn argv _ => argv
  | _ => []
  end.

(** The build of the artifact for one Spark version, line 105. *)
Definition build_argv (publish_target version : string) : list string :=
  ["./build/sbt"; Py.percent "-Dspark.version=%s" [version]; "clean"; publish_target]%string.

(** The event is such a build: [./build/sbt <option> clean <target>]. *)
Definition is_build (e : event) : bool :=
  match e with
  | Spawn [cmd; _; goal; _] _ => String.eqb cmd "./build/sbt" && String.eqb goal "clean"
  | _ => false
  end.

(** Before the builds: no build yet, and the local branch not yet updated. *)
Definition before_builds (e : event) : bool :=
  negb (is_build e) && negb (echoes "Local branch updated" e).

(** The events of the loop are the commands for the versions, one by one. *)
Definition runs_each {A} (argv : A -> list string) (ev : list event) (l : list A) : Prop :=
  Forall2 (fun e x => exists r, e = Spawn (argv x) r) ev l.

(** The command [argv] was run and ended with code 0. *)
Definition succeeded (argv : list string) (tr : list event) : Prop :=
  exists out, In (Spawn argv (Some (0%Z, out))) tr.

(** The argument of the release command of line 97-98. *)
Definition release_command (a : Args) : string :=
  Py.percent "release release-version %s next-version %s"
             [release_version a; normalize_next_version (next_version a)].

(** Stops that make the exit status 1. *)
Definition stops_with_1 (s : stop) : bool :=
  match s with
  | Exited c => (c =? 1)%Z
  | Raised _ => true
  end.

(** The event is a [git push ...]. *)
Definition pushes (e : event) : bool :=
  match e with
  | Spawn (a :: b :: _) _ => String.eqb a "git" && String.eqb b "push"
  | _ => false
  end.

(** The two prompts that guard the pushes. *)
Definition push_prompt (a : Args) : string :=
  Py.percent "Would you like to push local branch & version tag to remote: %s?"
             [git_remote a].
Definition docs_push_prompt (a : Args) : string :=
  Py.percent "Would you like to push docs branch to %s and update gh-pages branch?"
             [git_remote a].

(** The event is one of the three queries of the repository. *)
Definition is_query (e : event) : bool :=
  spawns git_rev_parse e || spawns git_diff e || spawns git_tag e.

(** The event is a command other than the three queries. *)
Definition acts (e : event) : bool := is_spawn e && negb (is_query e).

(** The event belongs to the docs step: the prompt for it, the creation
    of the docs branch from the release tag, the build script, the staging
    and the commit of the site, the force-push, the deletion of the docs
    branch. *)
Definition docs_event (e : event) : bool :=
  match e with
  | Confirm q _ => String.eqb q docs_prompt
  | Spawn [cmd] _ => String.eqb cmd "./dev/build-docs.sh"
  | Spawn [a; b; c; _] _ =>
      String.eqb a "git" &&
      (String.eqb b "add" || String.eqb b "commit"
       || (String.eqb b "branch" && String.eqb c "-D"))
  | Spawn [a; b; c; _; _] _ =>
      String.eqb a "git" &&
      ((String.eqb b "checkout" && String.eqb c "-b")
       || (String.eqb b "push" && String.eqb c "-f"))
  | _ => false
  end.

(** The force-push of the docs branch onto [gh-pages], line 134. *)
Definition is_force_push (e : event) : bool :=
  match e with
  | Spawn [a; b; c; _; _] _ =>
      String.eqb a "git" && String.eqb b "push" && String.eqb c "-f"
  | _ => false
  end.

(** The event is a run of [./build/sbt] with one argument. *)
Definition is_sbt_command (e : event) : bool :=
  match e with
  | Spawn [cmd; _] _ => String.eqb cmd "./build/sbt"
  | _ => false
  end.

(** The checks of lines 48-91 have passed in the stretch [tr]: the
    publish target is a known mode; the release was confirmed, if there
    is somebody to ask; the current branch was asked for and is not a
    detached head, and going on off master was confirmed, if there is
    somebody to ask; the working tree has no uncommitted changes; and the
    release tag is not among the tags of the repository. *)
Definition checks_passed (a : Args) (tr : list event) : Prop :=
  dict_in (publish_to a) PUBLISH_MODES = true
  /\ (no_prompt a = false -> In (Confirm (release_prompt a) (Some true)) tr)
  /\ (exists out,
        In (Spawn git_rev_parse (Some (0%Z, out))) tr
        /\ Py.strip out <> "HEAD"%string
        /\ (Py.strip out <> "master"%string -> no_prompt a = false ->
            In (Confirm master_prompt (Some true)) tr))
  /\ In (Spawn git_diff (Some (0%Z, ""%string))) tr
  /\ (exists out tags,
        In (Spawn git_tag (Some (0%Z, out))) tr
        /\ known_tags out = Some tags
        /\ list_in (release_tag a) tags = false).

(** The event is the deletion of a branch, [git branch -d ...] or
    [git branch -D ...]. *)
Definition deletes_branch (e : event) : bool :=
  match e with
  | Spawn (a :: b :: c :: _) _ =>
      String.eqb a "git" && String.eqb b "branch" && (String.eqb c "-d" || String.eqb c "-D")
  | _ => false
  end.

(** The message of lines 86-90 for the one tag the script looks for. *)
Definition tag_conflict_message (a : Args) : string :=
  ("The following tags already exist:" ++ Py.nl ++
   "    " ++ release_tag a ++ Py.nl ++
   "Please delete them and try.")%string.

(** The event is a prompt that the operator answered. *)
Definition is_answer (e : event) : bool :=
  match e with
  | Confirm _ (Some _) => true
  | _ => false
  end.

(** The push [e] is one that the prompt [q] asks for: the prompt of line
    113 asks for the push of the current branch and of the release tag
    (lines 115-116), the prompt of line 130 for the push of the docs
    branch and its force-push onto gh-pages (lines 133-134). *)
Definition asked_for (w : World) (a : Args) (current_branch q : string) (e : event) : Prop :=
  (q = push_prompt a
   /\ exists r, e = Spawn ["git"; "push"; git_remote a; current_branch]%string r
                \/ e = Spawn ["git"; "push"; git_remote a; release_tag a]%string r)
  \/ (q = docs_push_prompt a
      /\ exists r, e = Spawn ["git"; "push"; git_remote a; docs_branch w a]%string r
                   \/ e = Spawn ["git"; "push"; "-f"; git_remote a;
                                 (docs_branch w a ++ ":gh-pages")%string]%string r).

(** Reading the stretch [tr] from left to right, with [yes] the prompt
    that the operator last answered, if the answer was yes: every push
    is one that this prompt asks for. *)
Fixpoint guarded (w : World) (a : Args) (current_branch : string) (yes : option string)
    (tr : list event) : Prop :=
  match tr with
  | [] => True
  | Confirm q (Some b) :: rest =>
      guarded w a current_branch (if b then Some q else None) rest
  | e :: rest =>
      (pushes e = true -> exists q, yes = Some q /\ asked_for w a current_branch q e)
      /\ guarded w a current_branch yes rest
  end.

(** ** The clock *)

(** What [datetime.now()] returns: a date and a time of day, to the
    microsecond. *)
Record datetime : Type := {
  year : N;
  month : N;
  day : N;
  hour : N;
  minute : N;
  second : N;
  microsecond : N
}.

(** The fields are in range.  (Python has years from 1; from 1000 on
    [%Y] gives four digits on every platform.) *)
Definition valid (d : datetime) : bool :=
  ((1000 <=? year d) && (year d <=? 9999)
   && (1 <=? month d) && (month d <=? 12)
   && (1 <=? day d) && (day d <=? 31)
   && (hour d <=? 23) && (minute d <=? 59) && (second d <=? 59)
   && (microsecond d <=? 999999))%N.

Definition digit (n : N) : ascii := ascii_of_N (48 + n).

(** [%m], [%d], [%H], [%M], [%S]: two digits, zero-padded. *)
Definition two_digits (n : N) : string :=
  String (digit (n / 10)) (String (digit (n mod 10)) EmptyString).

(** [%Y]: four digits. *)
Definition four_digits (n : N) : string :=
  String (digit (n / 1000)) (String (digit ((n / 100) mod 10)) (two_digits (n mod 100))).

(** [d.strftime("%Y-%m-%dT%H-%M-%S")], line 47: the microseconds are
    not printed. *)
Definition strftime (d : datetime) : string :=
  (four_digits (year d) ++ "-" ++ two_digits (month d) ++ "-" ++ two_digits (day d) ++ "T" ++
   two_digits (hour d) ++ "-" ++ two_digits (minute d) ++ "-" ++ two_digits (second d))%string.

(** The instant [d] to the second. *)
Definition to_second (d : datetime) : N * N * N * N * N * N :=
  (year d, month d, day d, hour d, minute d, second d).

(** The world [w] with the clock reading [d] when the run starts. *)
Definition started_at (d : datetime) (w : World) : World :=
  {| now := strftime d;
     confirm_answer := confirm_answer w;
     spawn_result := spawn_result w |}.

(** Noon of the scenario, a quarter of a second later, and a second later. *)
Definition noon : datetime :=
  {| year := 2023; month := 4; day := 1; hour := 12; minute := 0; second := 0;
     microsecond := 0 |}.
Definition noon_and_a_quarter : datetime :=
  {| year := 2023; month := 4; day := 1; hour := 12; minute := 0; second := 0;
     microsecond := 250000 |}.
Definition noon_and_a_second : datetime :=
  {| year := 2023; month := 4; day := 1; hour := 12; minute := 0; second := 1;
     microsecond := 0 |}.

(** ** Rules *)

Section Rules.
Context {A B : Type} (w : World) (h : list event).

Lemma wp_any (m : M A) (Q : list event -> outcome A -> Prop) :
  (forall ev o, Q ev o) -> wp m w h Q.
Proof. intros H. apply H. Qed.

Lemma wp_ret (a : A) (Q : list event -> outcome A -> Prop) :
  Q [] (Ret a) -> wp (ret a) w h Q.
Proof. exact (fun H => H). Qed.

Lemma wp_raise (e : exn) (Q : list event -> outcome A -> Prop) :
  Q [] (Raise e) -> wp (raise e) w h Q.
Proof. exact (fun H => H). Qed.

Lemma wp_sys_exit (c : Z) (Q : list event -> outcome A -> Prop) :
  Q [] (Exit c) -> wp (sys_exit c) w h Q.
Proof. exact (fun H => H). Qed.

Lemma wp_bind (m : M A) (f : A -> M B) (Q : list event -> outcome B -> Prop) :
  wp m w h (fun e1 o1 =>
    match o1 with
    | Ret a => wp (f a) w (h ++ e1) (fun e2 o2 => Q (e1 ++ e2) o2)
    | Exit c => Q e1 (Exit c)
    | Raise e => Q e1 (Raise e)
    end) ->
  wp (bind m f) w h Q.
Proof.
  unfold wp, bind. destruct (m w h) as [e1 [a|c|e]]; simpl; auto.
  destruct (f a w (h ++ e1)) as [e2 o2]; simpl; auto.
Qed.

(** The first step summarised by the events it may add. *)
Lemma wp_bind_emits (p : event -> bool) (m : M A) (f : A -> M B)
    (Q : list event -> outcome B -> Prop) :
  emits p m ->
  (forall e1 a, forallb p e1 = true ->
     wp (f a) w (h ++ e1) (fun e2 o2 => Q (e1 ++ e2) o2)) ->
  (forall e1 (o : outcome A), forallb p e1 = true -> failed o -> Q e1 (carry o)) ->
  wp (bind m f) w h Q.
Proof.
  intros Hp Hk Hf. apply wp_bind. unfold wp.
  specialize (Hp w h). destruct (m w h) as [e1 [a|c|e]]; simpl in *.
  - apply Hk; assumption.
  - apply (Hf e1 (Exit c)); simpl; auto.
  - apply (Hf e1 (Raise e)); simpl; auto.
Qed.

Lemma wp_emits (p : event -> bool) (m : M A) (Q : list event -> outcome A -> Prop) :
  emits p m -> (forall ev o, forallb p ev = true -> Q ev o) -> wp m w h Q.
Proof. intros Hp HQ. apply HQ. apply Hp. Qed.
End Rules.

Section Primitives.
Context (w : World) (h : list event).

Lemma wp_echo x (Q : list event -> outcome unit -> Prop) :
  Q [Echo (style_underline x)] (Ret tt) -> wp (prominentPrint x) w h Q.
Proof. exact (fun H => H). Qed.

Lemma wp_now (Q : list event -> outcome string -> Prop) :
  Q [] (Ret (now w)) -> wp datetime_now_strftime w h Q.
Proof. exact (fun H => H). Qed.

Lemma wp_confirm prompt (Q : list event -> outcome bool -> Prop) :
  (forall b, Q [Confirm prompt (Some b)] (Ret b)) ->
  Q [Confirm prompt None] (Raise Abort) ->
  wp (click_confirm prompt) w h Q.
Proof.
  intros Hb Hn. unfold wp, click_confirm; simpl.
  destruct (confirm_answer w h prompt); auto.
Qed.

Lemma wp_check_call argv (Q : list event -> outcome Z -> Prop) :
  (forall out, Q [Spawn argv (Some (0%Z, out))] (Ret 0%Z)) ->
  (forall rc out, rc <> 0%Z ->
     Q [Spawn argv (Some (rc, out))] (Raise (CalledProcessError rc argv))) ->
  Q [Spawn argv None] (Raise (OSError argv)) ->
  wp (check_call argv) w h Q.
Proof.
  intros H0 H1 H2. unfold wp, check_call; simpl.
  destruct (spawn_result w h argv) as [[rc out]|]; auto.
  destruct (Z.eqb_spec rc 0); subst; auto.
Qed.

Lemma wp_check_output argv (Q : list event -> outcome string -> Prop) :
  (forall out, Q [Spawn argv (Some (0%Z, out))] (Ret out)) ->
  (forall rc out, rc <> 0%Z ->
     Q [Spawn argv (Some (rc, out))] (Raise (CalledProcessError rc argv))) ->
  Q [Spawn argv None] (Raise (OSError argv)) ->
  wp (check_output argv) w h Q.
Proof.
  intros H0 H1 H2. unfold wp, check_output; simpl.
  destruct (spawn_result w h argv) as [[rc out]|]; auto.
  destruct (Z.eqb_spec rc 0); subst; auto.
Qed.
End Primitives.

Section Emits.
Context (p : event -> bool).

Lemma emits_ret {A} (a : A) : emits p (ret a).
Proof. intros w h; reflexivity. Qed.

Lemma emits_raise {A} e : emits p (@raise A e).
Proof. intros w h; reflexivity. Qed.

Lemma emits_sys_exit {A} c : emits p (@sys_exit A c).
Proof. intros w h; reflexivity. Qed.

Lemma emits_now : emits p datetime_now_strftime.
Proof. intros w h; reflexivity. Qed.

Lemma emits_bind {A B} (m : M A) (f : A -> M B) :
  emits p m -> (forall a, emits p (f a)) -> emits p (bind m f).
Proof.
  intros Hm Hf w h. unfold bind. specialize (Hm w h).
  destruct (m w h) as [e1 [a|c|e]]; simpl in *; auto.
  specialize (Hf a w (h ++ e1)).
  destruct (f a w (h ++ e1)) as [e2 o2]; simpl in *.
  rewrite forallb_app, Hm, Hf. reflexivity.
Qed.

Lemma emits_echo x : p (Echo (style_underline x)) = true -> emits p (prominentPrint x).
Proof. intros H w h; simpl. rewrite H. reflexivity. Qed.

Lemma emits_confirm prompt :
  (forall ans, p (Confirm prompt ans) = true) -> emits p (click_confirm prompt).
Proof. intros H w h; simpl. rewrite H. reflexivity. Qed.

Lemma emits_check_call argv :
  (forall r, p (Spawn argv r) = true) -> emits p (check_call argv).
Proof. intros H w h; simpl. rewrite H. reflexivity. Qed.

Lemma emits_check_output argv :
  (forall r, p (Spawn argv r) = true) -> emits p (check_output argv).
Proof. intros H w h; simpl. rewrite H. reflexivity. Qed.

Lemma emits_when c body : emits p body -> emits p (when c body).
Proof. intros H. destruct c; simpl; [exact H | apply emits_ret]. Qed.

Lemma emits_verify prompt interactive :
  (interactive = true -> forall ans, p (Confirm prompt ans) = true) ->
  emits p (verify prompt interactive).
Proof.
  intros H. unfold verify. destruct interactive; simpl.
  - apply emits_confirm. auto.
  - apply emits_ret.
Qed.

Lemma emits_decode b : emits p (decode b).
Proof. unfold decode. destruct (Py.decode b); [apply emits_ret | apply emits_raise]. Qed.

Lemma emits_getitem d k : emits p (getitem d k).
Proof. unfold getitem. destruct (dict_get d k); [apply emits_ret | apply emits_raise]. Qed.

Lemma emits_for_each {A} (l : list A) (body : A -> M unit) :
  (forall x, emits p (body x)) -> emits p (for_each l body).
Proof.
  intros H. induction l as [|x l IH]; simpl.
  - apply emits_ret.
  - apply emits_bind; auto.
Qed.
End Emits.

(** ** Proof automation *)

(** [emits p m] by the structure of [m]; [leaf] proves that an event
    passes [p]. *)
Ltac emits_with leaf :=
  repeat first
    [ apply emits_bind; [ | intros ? ]
    | apply emits_ret | apply emits_raise | apply emits_sys_exit | apply emits_now
    | apply emits_decode | apply emits_getitem
    | apply emits_when
    | apply emits_for_each; intros ?
    | apply emits_echo; leaf
    | apply emits_check_call; intros ?; leaf
    | apply emits_check_output; intros ?; leaf
    | apply emits_verify;
      let Hi := fresh in intros Hi ?; first [ discriminate Hi | leaf ]
    | match goal with |- emits _ (if ?c then _ else _) => destruct c end
    | progress cbv beta zeta ].

Ltac emits_tac := emits_with ltac:(reflexivity).

(** Steps that do not branch. *)
Ltac wp_simple :=
  lazymatch goal with
  | |- wp (ret _) _ _ _ => apply wp_ret
  | |- wp (raise _) _ _ _ => apply wp_raise
  | |- wp (sys_exit _) _ _ _ => apply wp_sys_exit
  | |- wp (prominentPrint _) _ _ _ => apply wp_echo
  | |- wp datetime_now_strftime _ _ _ => apply wp_now
  | |- wp (when _ _) _ _ _ => unfold when at 1
  | |- wp (verify _ _) _ _ _ => unfold verify at 1
  | |- wp (decode _) _ _ _ => unfold decode at 1
  | |- wp (getitem _ _) _ _ _ => unfold getitem at 1
  | |- wp (if negb (negb ?b) then _ else _) _ _ _ => rewrite (negb_involutive b)
  | |- wp (if negb true then _ else _) _ _ _ => change (negb true) with false
  | |- wp (if negb false then _ else _) _ _ _ => change (negb false) with true
  end; cbv beta iota zeta.

Ltac wp_prim :=
  first
    [ wp_simple
    | lazymatch goal with
      | |- wp (bind _ _) _ _ _ => apply wp_bind
      | |- wp (click_confirm _) _ _ _ => apply wp_confirm; [intros ? | ]
      | |- wp (check_call _) _ _ _ => apply wp_check_call; [intros ? | intros ? ? ? | ]
      | |- wp (check_output _) _ _ _ => apply wp_check_output; [intros ? | intros ? ? ? | ]
      | |- wp (match ?x with _ => _ end) _ _ _ => destruct x eqn:?
      end; cbv beta iota zeta ].

(** Enter the first step of a sequence and run it as far as it is
    determined. *)
Ltac wp_head := apply wp_bind; repeat wp_simple.

(** Run the computation to all its ends, branching on every unknown. *)
Ltac wp_go := repeat wp_prim.

(** Summarise the first step of the computation by [p]. *)
Ltac wp_skip p :=
  lazymatch goal with
  | |- wp (bind _ _) _ _ _ =>
      apply (wp_bind_emits _ _ p); [ solve [emits_tac] | intros ? ? ? | intros ? ? ? ? ]
  end; cbv beta iota zeta.

(** Summarise all that remains of the computation by [p]. *)
Ltac wp_rest p :=
  apply (wp_emits _ _ p); [ solve [emits_tac] | intros ? ? ? ]; cbv beta iota zeta.

(** Case analysis on the position of an event in a trace. *)
Ltac split_in H :=
  lazymatch type of H with
  | In _ (_ ++ _) => apply in_app_or in H; destruct H as [H|H]; split_in H
  | In _ (_ :: _) => destruct H as [H|H]; [ | split_in H]
  | In _ [] => destruct H
  | _ => idtac
  end.

(** An event found in a summarised stretch passes the summary. *)
Ltac in_summary H K :=
  lazymatch type of H with
  | In ?x ?l =>
      match goal with
      | Hl : forallb ?p l = true |- _ =>
          pose proof (proj1 (forallb_forall p l) Hl x H) as K
      end
  end.

(** An event that a summary excludes is not in the summarised stretch;
    closes the cases of [split_in] that fall in such stretches. *)
Ltac excluded H :=
  let K := fresh "K" in
  in_summary H K;
  first [ lazy in K; discriminate K
        | cbn [prompts echoes negb] in K; rewrite String.eqb_refl in K; discriminate K ].

(** The event of [H] is in no summarised stretch and is none of the
    listed events. *)
Ltac absent H := exfalso; split_in H; first [ excluded H | discriminate H ].

(** Run the steps that do not branch until [stop] holds of the goal. *)
Ltac wp_run_to stop :=
  repeat (tryif stop then fail else first [ wp_simple | apply wp_bind ]).

(** Let the rest of the run be anything. *)
Ltac wp_forget :=
  repeat lazymatch goal with
         | |- wp _ _ _ _ => apply wp_any; intros ? [?|?|?]; cbv beta iota zeta
         end.

(** Find an event in a trace made of stretches and listed events. *)
Ltac find_in :=
  first [ apply in_eq
        | apply in_cons; find_in
        | apply in_or_app; first [ left; find_in | right; find_in ] ].

(** Summarise step after step by [p] until [stop] holds of the goal;
    [tac] closes the cases where a summarised step ends the run. *)
Ltac skip_to p stop tac :=
  tryif stop then idtac else (wp_skip p; [ skip_to p stop tac | tac ]).

(** Where a run stands: at the query [argv], at the echo of [x], at the
    choice on publish-docs, at a command. *)
Ltac at_output argv :=
  lazymatch goal with
  | |- wp (bind (check_output argv) _) _ _ _ => idtac
  end.

Ltac at_echo x :=
  lazymatch goal with
  | |- wp (bind (prominentPrint x) _) _ _ _ => idtac
  end.

Ltac at_docs_choice :=
  lazymatch goal with
  | |- wp (bind (if _ then _ else _) _) _ _ _ => idtac
  end.

Ltac at_any_call :=
  lazymatch goal with
  | |- wp (bind (check_call _) _) _ _ _ => idtac
  end.

(** A property of what [main] does is a property of the run. *)
Lemma main_wp w a (Q : list event -> outcome unit -> Prop) :
  wp (main (release_version a) (next_version a) (publish_to a) (no_prompt a)
           (git_remote a) (publish_docs a) (spark_version a)) w [] Q ->
  Q (trace w a) (snd (run w a)).
Proof. exact (fun H => H). Qed.

Lemma quiet_no_branch argv e : quiet_about argv e = true -> negb (creates_branch e) = true.
Proof. unfold quiet_about. intros H. apply andb_prop in H. apply H. Qed.

(** No event of the trace creates a branch: by cases on where the event is. *)
Ltac no_branch :=
  apply forallb_forall;
  let e := fresh "e" in let He := fresh "He" in
  intros e He; split_in He;
  first [ let K := fresh "K" in in_summary He K; exact (quiet_no_branch _ _ K)
        | subst e; reflexivity ].

(** ** Strings *)

Example strip_branch : Py.strip ("master" ++ Py.nl)%string = "master"%string.
Proof. reflexivity. Qed.

Example split_tags :
  Py.split ("v0.8.0" ++ Py.nl ++ "v0.8.1" ++ Py.nl)%string = ["v0.8.0"; "v0.8.1"]%string.
Proof. reflexivity. Qed.

Example decode_invalid : Py.decode (String (ascii_of_nat 255) EmptyString) = None.
Proof. reflexivity. Qed.

Example repr_of_branch : Py.bytes_repr "master" = "b'master'"%string.
Proof. reflexivity. Qed.

Example repr_of_modes :
  Py.repr_list (keys PUBLISH_MODES) = "['local', 'm2', 'spark-package-publish']"%string.
Proof. reflexivity. Qed.

Example tag_of_release : Py.percent RELEASE_TAG ["1.2.3"%string] = "v1.2.3"%string.
Proof. reflexivity. Qed.

Example endswith_snapshot :
  Py.endswith "1.3.0-SNAPSHOT" "SNAPSHOT" = true /\ Py.endswith "1.3.0" "SNAPSHOT" = false.
Proof. split; reflexivity. Qed.

Lemma append_nil_r (s : string) : (s ++ "")%string = s.
Proof. induction s as [|c s IH]; simpl; [reflexivity | now rewrite IH]. Qed.

Lemma append_assoc (a b c : string) : ((a ++ b) ++ c)%string = (a ++ (b ++ c))%string.
Proof. induction a as [|x a IH]; simpl; [reflexivity | now rewrite IH]. Qed.

Lemma append_inj_l (p x y : string) : (p ++ x)%string = (p ++ y)%string -> x = y.
Proof.
  induction p as [|c p IH]; simpl; intros H; [exact H | ].
  injection H as H. auto.
Qed.

Lemma endswith_app (p s : string) : Py.endswith (p ++ s) s = true.
Proof.
  induction p as [|c p IH]; cbn [append].
  - destruct s; cbn [Py.endswith]; rewrite String.eqb_refl; reflexivity.
  - cbn [Py.endswith]. rewrite IH. apply orb_true_r.
Qed.

Lemma endswith_spec (s suffix : string) : Py.endswith s suffix = true <-> ends_in s suffix.
Proof.
  split.
  - induction s as [|c s IH]; cbn [Py.endswith]; intros H.
    + rewrite orb_false_r in H. exists ""%string.
      apply String.eqb_eq in H. exact H.
    + apply orb_prop in H. destruct H as [H|H].
      * exists ""%string. apply String.eqb_eq in H. exact H.
      * destruct (IH H) as [p Hp]. exists (String c p). simpl. now rewrite Hp.
  - intros [p ->]. apply endswith_app.
Qed.

Lemma endswith_false (s suffix : string) : Py.endswith s suffix = false <-> ~ ends_in s suffix.
Proof.
  rewrite <- endswith_spec. destruct (Py.endswith s suffix); split; intros H;
    try reflexivity; try discriminate; try (intros K; discriminate K).
  exfalso. apply H. reflexivity.
Qed.

Lemma normalized_ends_in_snapshot (s : string) :
  Py.endswith (normalize_next_version s) "SNAPSHOT" = true.
Proof.
  unfold normalize_next_version. destruct (Py.endswith s "SNAPSHOT") eqn:E; simpl.
  - exact E.
  - change (s ++ "-SNAPSHOT")%string with (s ++ ("-" ++ "SNAPSHOT"))%string.
    rewrite <- append_assoc. apply endswith_app.
Qed.

Lemma percent_working_branch rv t :
  Py.percent WORKING_BRANCH [rv; t] = ("WORKING_BRANCH_RELEASE_" ++ rv ++ "_@" ++ t)%string.
Proof. cbn. now rewrite append_nil_r. Qed.

Lemma percent_docs_branch rv t :
  Py.percent WORKING_DOCS_BRANCH [rv; t] = ("zWORKING_BRANCH_DOCS_" ++ rv ++ "_@" ++ t)%string.
Proof. cbn. now rewrite append_nil_r. Qed.

Lemma percent_release_tag rv : Py.percent RELEASE_TAG [rv] = ("v" ++ rv)%string.
Proof. cbn. now rewrite append_nil_r. Qed.


(** ** Runs that stop at a validation or a precondition *)

Lemma not_in_keys (k : string) (d : list (string * string)) :
  ~ In k (keys d) -> dict_in k d = false.
Proof.
  intros H. unfold dict_in. destruct (existsb (String.eqb k) (keys d)) eqn:E; [ | reflexivity].
  exfalso. apply existsb_exists in E. destruct E as [x [Hx Hk]].
  apply String.eqb_eq in Hk. subst x. exact (H Hx).
Qed.

Lemma list_in_true (a : string) (l : list string) : In a l -> list_in a l = true.
Proof.
  intros H. unfold list_in. apply existsb_exists. exists a. split; [exact H | apply String.eqb_refl].
Qed.

Lemma decode_some (b s : string) : Py.decode b = Some s -> s = b.
Proof. unfold Py.decode. destruct (Py.utf8_valid (Py.bytes_of b)); congruence. Qed.

(** An unknown publish target: one echo, exit 1, nothing else. *)
Lemma unknown_target_run w a :
  ~ In (publish_to a) (keys PUBLISH_MODES) ->
  run w a =
  ([Echo (style_underline
     "Unknown publish target, --publish-to should be one of: ['local', 'm2', 'spark-package-publish'].")],
   Exit 1%Z).
Proof.
  intros H. apply not_in_keys in H.
  assert (K : fst (run w a) = [Echo (style_underline
     "Unknown publish target, --publish-to should be one of: ['local', 'm2', 'spark-package-publish'].")]
     /\ snd (run w a) = Exit 1%Z).
  { apply (main_wp w a (fun tr o => tr = _ /\ o = Exit 1%Z)).
    unfold main. apply wp_bind, wp_now. cbv beta iota.
    apply wp_bind. rewrite H. wp_go. split; reflexivity. }
  destruct (run w a) as [tr o]. simpl in K. destruct K as [-> ->]. reflexivity.
Qed.

(** A detached head: exit 1. *)
Lemma detached_run w a rc out :
  In (Spawn git_rev_parse (Some (rc, out))) (trace w a) ->
  Py.strip out = "HEAD"%string ->
  status w a = 1%Z.
Proof.
  unfold status.
  apply (main_wp w a (fun tr o =>
    In (Spawn git_rev_parse (Some (rc, out))) tr -> Py.strip out = "HEAD"%string ->
    exit_status o = 1%Z)).
  unfold main.
  skip_to (fun e => negb (spawns git_rev_parse e))
          ltac:(idtac; at_output ["git"; "rev-parse"; "--abbrev-ref"; "HEAD"]%string)
          ltac:(idtac; intros Hin _; absent Hin).
  apply wp_bind, wp_check_output; [intros out0 | intros rc0 out0 Hrc | ]; cbv beta iota zeta.
  - apply wp_bind. unfold when at 1.
    destruct (Py.strip out0 =? "HEAD")%string eqn:Hhead.
    + wp_go. reflexivity.
    + wp_prim. wp_rest (fun e => negb (spawns git_rev_parse e)).
      intros Hin Hout. exfalso. split_in Hin; try excluded Hin.
      injection Hin as _ Ho. subst out0.
      rewrite Hout in Hhead. discriminate Hhead.
  - reflexivity.
  - reflexivity.
Qed.

(** Uncommitted changes: exit 1, and no branch is created. *)
Lemma dirty_tree_run w a rc out :
  In (Spawn git_diff (Some (rc, out))) (trace w a) ->
  out <> ""%string ->
  status w a = 1%Z /\ forallb (fun e => negb (creates_branch e)) (trace w a) = true.
Proof.
  unfold status.
  apply (main_wp w a (fun tr o =>
    In (Spawn git_diff (Some (rc, out))) tr -> out <> ""%string ->
    exit_status o = 1%Z /\ forallb (fun e => negb (creates_branch e)) tr = true)).
  unfold main.
  skip_to (quiet_about git_diff) ltac:(idtac; at_output ["git"; "diff"; "--stat"]%string)
          ltac:(idtac; intros Hin _; absent Hin).
  apply wp_bind, wp_check_output; [intros out1 | intros rc1 out1 Hrc | ]; cbv beta iota.
  - apply wp_bind. unfold when at 1. destruct (negb (out1 =? "")%string) eqn:Hdirty.
    + wp_go. intros _ _. split; [reflexivity | no_branch].
    + wp_prim. wp_rest (fun e => negb (spawns git_diff e)).
      intros Hin Hne. exfalso. split_in Hin; try excluded Hin.
      injection Hin as _ Hout. subst out1.
      apply negb_false_iff, String.eqb_eq in Hdirty. contradiction.
  - intros _ _. split; [reflexivity | no_branch].
  - intros _ _. split; [reflexivity | no_branch].
Qed.

(** The release tag is already known: exit 1, and no branch is created. *)
Lemma tag_conflict_run w a rc out tags :
  In (Spawn git_tag (Some (rc, out))) (trace w a) ->
  known_tags out = Some tags ->
  In (release_tag a) tags ->
  status w a = 1%Z /\ forallb (fun e => negb (creates_branch e)) (trace w a) = true.
Proof.
  unfold status.
  apply (main_wp w a (fun tr o =>
    In (Spawn git_tag (Some (rc, out))) tr -> known_tags out = Some tags ->
    In (release_tag a) tags ->
    exit_status o = 1%Z /\ forallb (fun e => negb (creates_branch e)) tr = true)).
  unfold main.
  skip_to (quiet_about git_tag) ltac:(idtac; at_output ["git"; "tag"]%string)
          ltac:(idtac; intros Hin _ _; absent Hin).
  apply wp_bind, wp_check_output; [intros out2 | intros rc2 out2 Hrc | ]; cbv beta iota.
  - apply wp_bind. unfold decode at 1. destruct (Py.decode out2) as [s|] eqn:Hdec.
    + wp_prim. apply wp_bind. unfold when at 1.
      destruct (negb (Datatypes.length
                 (filter (fun t => list_in t (Py.split s))
                         [Py.percent RELEASE_TAG [release_version a]]) =? 0)%nat) eqn:Hconf.
      * wp_go. intros _ _ _. split; [reflexivity | no_branch].
      * wp_prim. wp_rest (fun e => negb (spawns git_tag e)).
        intros Hin Hknown Htag. exfalso. split_in Hin; try excluded Hin.
        injection Hin as _ Hout. subst out2.
        unfold known_tags in Hknown. rewrite Hdec in Hknown.
        injection Hknown as Hknown. subst tags.
        apply list_in_true in Htag. unfold release_tag in Htag.
        cbn [filter] in Hconf. rewrite Htag in Hconf. discriminate Hconf.
    + wp_go. intros _ _ _. split; [reflexivity | no_branch].
  - intros _ _ _. split; [reflexivity | no_branch].
  - intros _ _ _. split; [reflexivity | no_branch].
Qed.

(** ** Runs and their prompts *)

(** Without interaction, [verify] accepts at once, whatever the prompt. *)
Lemma verify_non_interactive (prompt : string) (w : World) (h : list event) :
  verify prompt false w h = ([], Ret true).
Proof. reflexivity. Qed.

(** With no-prompt set, the run shows no prompt at all. *)
Lemma no_prompt_silent w a :
  no_prompt a = true -> forallb (fun e => negb (is_confirm e)) (trace w a) = true.
Proof.
  intros Hnp.
  apply (main_wp w a (fun tr _ => forallb (fun e => negb (is_confirm e)) tr = true)).
  unfold main. rewrite Hnp.
  wp_rest (fun e => negb (is_confirm e)). assumption.
Qed.

(** Declining the release confirmation: exit 1. *)
Lemma release_declined_run w a :
  In (Confirm (release_prompt a) (Some false)) (trace w a) -> status w a = 1%Z.
Proof.
  unfold status.
  apply (main_wp w a (fun tr o =>
    In (Confirm (release_prompt a) (Some false)) tr -> exit_status o = 1%Z)).
  unfold main.
  do 2 (wp_skip (fun e => negb (is_confirm e)); [ | intros Hin; absent Hin ]).
  wp_head. destruct (no_prompt a).
  - wp_simple. wp_head. wp_rest (fun e => negb (prompts (release_prompt a) e)).
    intros Hin. absent Hin.
  - apply wp_confirm; [intros [|] | ]; cbv beta iota.
    + wp_head. wp_rest (fun e => negb (prompts (release_prompt a) e)).
      intros Hin. absent Hin.
    + wp_go. reflexivity.
    + reflexivity.
Qed.

(** Declining to continue off master: exit 1. *)
Lemma master_declined_run w a :
  In (Confirm master_prompt (Some false)) (trace w a) -> status w a = 1%Z.
Proof.
  unfold status.
  apply (main_wp w a (fun tr o =>
    In (Confirm master_prompt (Some false)) tr -> exit_status o = 1%Z)).
  unfold main.
  do 6 (wp_skip (fun e => negb (prompts master_prompt e)); [ | intros Hin; absent Hin ]).
  wp_head. destruct (negb (Py.strip a4 =? "master")%string).
  - wp_head. destruct (no_prompt a).
    + repeat wp_simple. wp_rest (fun e => negb (prompts master_prompt e)).
      intros Hin. absent Hin.
    + apply wp_confirm; [intros [|] | ]; cbv beta iota.
      * repeat wp_simple. wp_rest (fun e => negb (prompts master_prompt e)).
        intros Hin. absent Hin.
      * wp_go. reflexivity.
      * reflexivity.
  - wp_simple. wp_rest (fun e => negb (prompts master_prompt e)).
    intros Hin. absent Hin.
Qed.

(** Off master and interactive: the operator is asked. *)
Lemma off_master_prompted w a out :
  no_prompt a = false ->
  In (Spawn git_rev_parse (Some (0%Z, out))) (trace w a) ->
  Py.strip out <> "HEAD"%string ->
  Py.strip out <> "master"%string ->
  exists ans, In (Confirm master_prompt ans) (trace w a).
Proof.
  intros Hnp.
  apply (main_wp w a (fun tr o =>
    In (Spawn git_rev_parse (Some (0%Z, out))) tr ->
    Py.strip out <> "HEAD"%string -> Py.strip out <> "master"%string ->
    exists ans, In (Confirm master_prompt ans) tr)).
  unfold main. rewrite Hnp.
  skip_to (fun e => negb (spawns git_rev_parse e))
          ltac:(idtac; at_output ["git"; "rev-parse"; "--abbrev-ref"; "HEAD"]%string)
          ltac:(idtac; intros Hin _ _; absent Hin).
  apply wp_bind, wp_check_output; [intros out0 | intros rc0 out0 Hrc | ]; cbv beta iota zeta.
  - wp_head. destruct (Py.strip out0 =? "HEAD")%string eqn:Hhead.
    { wp_go. intros Hin Hnh _. exfalso. split_in Hin; try excluded Hin; try discriminate Hin.
      injection Hin as Ho. subst out0.
      apply String.eqb_eq in Hhead. contradiction. }
    wp_simple.
    wp_head. destruct (Py.strip out0 =? "master")%string eqn:Hmaster; repeat wp_simple.
    + wp_rest (fun e => negb (spawns git_rev_parse e)).
      intros Hin _ Hnm. exfalso. split_in Hin; try excluded Hin.
      injection Hin as Ho. subst out0.
      apply String.eqb_eq in Hmaster. contradiction.
    + wp_head. apply wp_confirm; [intros b | ]; cbv beta iota.
      * wp_forget; intros _ _ _; exists (Some b); find_in.
      * intros _ _ _. exists None. find_in.
  - intros Hin _ _. exfalso. split_in Hin; try excluded Hin.
    injection Hin as Hz _. contradiction.
  - intros Hin _ _. absent Hin.
Qed.

(** Off master without interaction: the run goes on to query the diff. *)
Lemma off_master_unprompted w a out :
  no_prompt a = true ->
  In (Spawn git_rev_parse (Some (0%Z, out))) (trace w a) ->
  Py.strip out <> "HEAD"%string ->
  exists r, In (Spawn git_diff r) (trace w a).
Proof.
  intros Hnp.
  apply (main_wp w a (fun tr o =>
    In (Spawn git_rev_parse (Some (0%Z, out))) tr ->
    Py.strip out <> "HEAD"%string ->
    exists r, In (Spawn git_diff r) tr)).
  unfold main. rewrite Hnp.
  skip_to (fun e => negb (spawns git_rev_parse e))
          ltac:(idtac; at_output ["git"; "rev-parse"; "--abbrev-ref"; "HEAD"]%string)
          ltac:(idtac; intros Hin _; absent Hin).
  apply wp_bind, wp_check_output; [intros out0 | intros rc0 out0 Hrc | ]; cbv beta iota zeta.
  - wp_head. destruct (Py.strip out0 =? "HEAD")%string eqn:Hhead.
    { wp_go. intros Hin Hnh. exfalso. split_in Hin; try excluded Hin; try discriminate Hin.
      injection Hin as Ho. subst out0.
      apply String.eqb_eq in Hhead. contradiction. }
    wp_simple.
    wp_head. destruct (Py.strip out0 =? "master")%string;
      wp_run_to ltac:(idtac; at_output ["git"; "diff"; "--stat"]%string);
      (apply wp_bind, wp_check_output; [intros out1 | intros rc1 out1 Hrc1 | ];
       cbv beta iota zeta; wp_forget; intros _ _; eexists; find_in).
  - intros Hin _. exfalso. split_in Hin; try excluded Hin.
    injection Hin as Hz _. contradiction.
  - intros Hin _. absent Hin.
Qed.

Lemma in_keys (k : string) (d : list (string * string)) :
  In k (keys d) -> dict_in k d = true.
Proof.
  intros H. unfold dict_in. apply existsb_exists. exists k.
  split; [exact H | apply String.eqb_refl].
Qed.

(** With a known publish target and the release confirmed (or no-prompt
    set), the run queries the current branch. *)
Lemma branch_queried w a :
  In (publish_to a) (keys PUBLISH_MODES) ->
  no_prompt a = true \/ In (Confirm (release_prompt a) (Some true)) (trace w a) ->
  exists r, In (Spawn git_rev_parse r) (trace w a).
Proof.
  intros Hpt. apply in_keys in Hpt.
  apply (main_wp w a (fun tr o =>
    no_prompt a = true \/ In (Confirm (release_prompt a) (Some true)) tr ->
    exists r, In (Spawn git_rev_parse r) tr)).
  unfold main. rewrite Hpt. wp_head. wp_head.
  destruct (no_prompt a) eqn:Hnp.
  - wp_run_to ltac:(idtac; at_output ["git"; "rev-parse"; "--abbrev-ref"; "HEAD"]%string).
    apply wp_bind, wp_check_output; [intros out0 | intros rc0 out0 Hrc0 | ];
      cbv beta iota zeta; wp_forget; intros _; eexists; find_in.
  - wp_head. apply wp_confirm; [intros [|] | ]; cbv beta iota.
    + wp_run_to ltac:(idtac; at_output ["git"; "rev-parse"; "--abbrev-ref"; "HEAD"]%string).
      apply wp_bind, wp_check_output; [intros out0 | intros rc0 out0 Hrc0 | ];
        cbv beta iota zeta; wp_forget; intros _; eexists; find_in.
    + wp_go. intros [H|H]; [discriminate H | absent H].
    + intros [H|H]; [discriminate H | absent H].
Qed.

(** Declining to build the docs: exit 0. *)
Lemma docs_declined_run w a :
  In (Confirm docs_prompt (Some false)) (trace w a) -> status w a = 0%Z.
Proof.
  unfold status.
  apply (main_wp w a (fun tr o =>
    In (Confirm docs_prompt (Some false)) tr -> exit_status o = 0%Z)).
  unfold main.
  skip_to (fun e => negb (prompts docs_prompt e)) ltac:(idtac; at_docs_choice)
          ltac:(idtac; intros Hin; absent Hin).
  apply wp_bind. destruct (publish_docs a).
  - repeat wp_simple. destruct (no_prompt a).
    + repeat wp_simple. wp_head.
      wp_rest (fun e => negb (prompts docs_prompt e)). intros Hin. absent Hin.
    + apply wp_confirm; [intros [|] | ]; cbv beta iota.
      * wp_head. wp_rest (fun e => negb (prompts docs_prompt e)). intros Hin. absent Hin.
      * wp_go. reflexivity.
      * intros Hin. absent Hin.
  - wp_go. reflexivity.
Qed.

(** Without interaction the push is not skipped: once the local branch
    is updated the current branch (the one [git rev-parse] named) is
    pushed, and a run that gets as far as the docs has pushed both the
    branch and the release tag. *)
Lemma no_prompt_pushes w a :
  no_prompt a = true ->
  (In (Echo (style_underline "Local branch updated")) (trace w a) ->
   exists out r,
     In (Spawn git_rev_parse (Some (0%Z, out))) (trace w a)
     /\ In (Spawn ["git"; "push"; git_remote a; Py.strip out]%string r) (trace w a))
  /\ (In (Echo (style_underline "Building release docs")) (trace w a) ->
      exists out out1 out2,
        In (Spawn git_rev_parse (Some (0%Z, out))) (trace w a)
        /\ In (Spawn ["git"; "push"; git_remote a; Py.strip out]%string (Some (0%Z, out1)))
              (trace w a)
        /\ In (Spawn ["git"; "push"; git_remote a; release_tag a]%string (Some (0%Z, out2)))
              (trace w a)).
Proof.
  intros Hnp. split.
  - apply (main_wp w a (fun tr o =>
      In (Echo (style_underline "Local branch updated")) tr ->
      exists out r,
        In (Spawn git_rev_parse (Some (0%Z, out))) tr
        /\ In (Spawn ["git"; "push"; git_remote a; Py.strip out]%string r) tr)).
    unfold main. rewrite Hnp.
    skip_to (fun e => negb (echoes "Local branch updated" e))
            ltac:(idtac; at_output ["git"; "rev-parse"; "--abbrev-ref"; "HEAD"]%string)
            ltac:(idtac; intros Hin; absent Hin).
    apply wp_bind, wp_check_output; [intros out0 | intros rc0 out0 Hrc0 | ];
      cbv beta iota zeta; [ | intros Hin; absent Hin | intros Hin; absent Hin ].
    skip_to (fun e => negb (echoes "Local branch updated" e))
            ltac:(idtac; at_echo "Local branch updated"%string)
            ltac:(idtac; intros Hin; absent Hin).
    wp_run_to ltac:(idtac; at_any_call).
    apply wp_bind, wp_check_call; [intros out1 | intros rc1 out1 Hrc1 | ];
      cbv beta iota zeta; wp_forget; intros _; do 2 eexists; (split; find_in).
  - apply (main_wp w a (fun tr o =>
      In (Echo (style_underline "Building release docs")) tr ->
      exists out out1 out2,
        In (Spawn git_rev_parse (Some (0%Z, out))) tr
        /\ In (Spawn ["git"; "push"; git_remote a; Py.strip out]%string (Some (0%Z, out1))) tr
        /\ In (Spawn ["git"; "push"; git_remote a; release_tag a]%string (Some (0%Z, out2))) tr)).
    unfold main. rewrite Hnp.
    skip_to (fun e => negb (echoes "Building release docs" e))
            ltac:(idtac; at_output ["git"; "rev-parse"; "--abbrev-ref"; "HEAD"]%string)
            ltac:(idtac; intros Hin; absent Hin).
    apply wp_bind, wp_check_output; [intros out0 | intros rc0 out0 Hrc0 | ];
      cbv beta iota zeta; [ | intros Hin; absent Hin | intros Hin; absent Hin ].
    skip_to (fun e => negb (echoes "Building release docs" e))
            ltac:(idtac; at_echo "Local branch updated"%string)
            ltac:(idtac; intros Hin; absent Hin).
    wp_run_to ltac:(idtac; at_any_call).
    apply wp_bind, wp_check_call; [intros out1 | intros rc1 out1 Hrc1 | ];
      cbv beta iota zeta; [ | intros Hin; absent Hin | intros Hin; absent Hin ].
    apply wp_bind, wp_check_call; [intros out2 | intros rc2 out2 Hrc2 | ];
      cbv beta iota zeta; [ | intros Hin; absent Hin | intros Hin; absent Hin ].
    wp_forget; intros _; do 3 eexists; (split; [find_in | split; find_in]).
Qed.

(** ** The branches of a run *)

(** Every branch that a run creates is its working branch or its docs
    branch. *)
Lemma names_working w a rest r :
  names_branch w a (Spawn ("git" :: "checkout" :: "-b" :: working_branch w a :: rest)%string r)
  = true.
Proof.
  unfold names_branch. cbn [created_branch].
  change (("git" =? "git")%string && ("checkout" =? "checkout")%string
          && ("-b" =? "-b")%string) with true. cbv iota.
  rewrite (String.eqb_refl (working_branch w a)). reflexivity.
Qed.

Lemma names_docs w a rest r :
  names_branch w a (Spawn ("git" :: "checkout" :: "-b" :: docs_branch w a :: rest)%string r)
  = true.
Proof.
  unfold names_branch. cbn [created_branch].
  change (("git" =? "git")%string && ("checkout" =? "checkout")%string
          && ("-b" =? "-b")%string) with true. cbv iota.
  rewrite (String.eqb_refl (docs_branch w a)). apply orb_true_r.
Qed.

Lemma run_branches w a : forallb (names_branch w a) (trace w a) = true.
Proof.
  apply (main_wp w a (fun tr _ => forallb (names_branch w a) tr = true)).
  unfold main. wp_head.
  apply (wp_emits _ _ (names_branch w a)); [ | intros ev o H; exact H ].
  emits_with ltac:(idtac;
    lazymatch goal with
    | |- names_branch _ _ (Spawn ["git"%string; "checkout"%string; "-b"%string;
                                  Py.percent WORKING_BRANCH _] ?r) = true =>
        exact (names_working w a [] r)
    | |- names_branch _ _ (Spawn ["git"%string; "checkout"%string; "-b"%string;
                                  Py.percent WORKING_DOCS_BRANCH _; ?t] ?r) = true =>
        exact (names_docs w a [t] r)
    | _ => reflexivity
    end).
Qed.

Lemma created_branch_named w a e name :
  names_branch w a e = true -> created_branch e = Some name ->
  name = working_branch w a \/ name = docs_branch w a.
Proof.
  unfold names_branch. intros H Hc. rewrite Hc in H.
  apply orb_prop in H. destruct H as [H|H]; apply String.eqb_eq in H;
    [left | right]; exact H.
Qed.

Lemma working_branch_inj rv t1 t2 :
  Py.percent WORKING_BRANCH [rv; t1] = Py.percent WORKING_BRANCH [rv; t2] -> t1 = t2.
Proof.
  rewrite !percent_working_branch. intros H.
  apply append_inj_l in H. apply append_inj_l in H. apply append_inj_l in H. exact H.
Qed.

Lemma docs_branch_inj rv t1 t2 :
  Py.percent WORKING_DOCS_BRANCH [rv; t1] = Py.percent WORKING_DOCS_BRANCH [rv; t2] -> t1 = t2.
Proof.
  rewrite !percent_docs_branch. intros H.
  apply append_inj_l in H. apply append_inj_l in H. apply append_inj_l in H. exact H.
Qed.

Lemma working_not_docs w1 a1 w2 a2 : working_branch w1 a1 <> docs_branch w2 a2.
Proof.
  unfold working_branch, docs_branch.
  rewrite percent_working_branch, percent_docs_branch. cbn [append].
  intros H. discriminate H.
Qed.


(** ** Runs in which nothing goes wrong *)

(** The loop over the Spark versions: it returns, or a build failed. *)
Lemma wp_for_each_calls {A} (argv : A -> list string) (l : list A) :
  forall w h (Q : list event -> outcome unit -> Prop),
    (forall ev, Q ev (Ret tt)) ->
    (forall ev e, existsb failed_spawn ev = true -> Q ev (Raise e)) ->
    wp (for_each l (fun x => check_call (argv x) ;; ret tt)) w h Q.
Proof.
  induction l as [|x l IH]; intros w h Q HR HE; cbn [for_each].
  - apply wp_ret, HR.
  - apply wp_bind, wp_bind, wp_check_call.
    + intros out. cbv beta iota. apply wp_ret. cbv beta iota.
      apply IH.
      * intros ev. apply HR.
      * intros ev e Hev. apply HE. rewrite existsb_app, Hev. apply orb_true_r.
    + intros rc out Hrc. apply HE. cbn. apply Z.eqb_neq in Hrc. rewrite Hrc. reflexivity.
    + apply HE. reflexivity.
Qed.

Lemma failed_spawn_trouble a e : failed_spawn e = true -> trouble a e = true.
Proof.
  destruct e as [x|q ans|argv [[rc out]|]]; cbn; try discriminate; try reflexivity.
  intros ->. reflexivity.
Qed.

Lemma existsb_failed_trouble a ev :
  existsb failed_spawn ev = true -> existsb (trouble a) ev = true.
Proof.
  intros H. apply existsb_exists in H. destruct H as [e [Hin He]].
  apply existsb_exists. exists e. split; [exact Hin | apply failed_spawn_trouble, He].
Qed.

Lemma dict_in_get k d : dict_in k d = true -> exists v, dict_get d k = Some v.
Proof.
  unfold dict_in, keys. induction d as [|[k' v] d IH]; cbn [map existsb dict_get fst].
  - discriminate.
  - destruct (String.eqb k k'); [intros _; eexists; reflexivity | exact IH].
Qed.

Lemma conflict_in (x : string) (l : list string) :
  negb (Nat.eqb (Datatypes.length (filter (fun t => list_in t l) [x])) 0) = true ->
  list_in x l = true.
Proof. cbn [filter]. destruct (list_in x l); [reflexivity | discriminate]. Qed.

Lemma trouble_free a tr :
  forallb (fun e => negb (trouble a e)) tr = true -> existsb (trouble a) tr = true -> False.
Proof.
  intros Hall Hex. apply existsb_exists in Hex. destruct Hex as [e [Hin He]].
  rewrite forallb_forall in Hall. specialize (Hall e Hin). rewrite He in Hall. discriminate.
Qed.

(** Find an event in a trace, the latest first, leaving the choice open. *)
Ltac find_last :=
  (apply in_or_app; right; find_last)
  + (apply in_cons; find_last)
  + (apply in_or_app; left; find_last)
  + (apply in_eq).

(** The chosen event is a trouble, by what is known of it. *)
Ltac is_trouble :=
  solve
    [ reflexivity
    | cbn [trouble];
      match goal with
      | H : ?rc <> 0%Z |- context [(?rc =? 0)%Z] =>
          rewrite (proj2 (Z.eqb_neq rc 0%Z) H); reflexivity
      | H : (Py.strip ?o =? "HEAD")%string = true |- context [Py.strip ?o] =>
          rewrite H; reflexivity
      | H : negb (?o =? "")%string = true |- context [negb (?o =? "")%string] =>
          rewrite H; reflexivity
      | H : Py.decode ?o = None |- context [known_tags ?o] =>
          unfold known_tags; rewrite H; reflexivity
      | H : Py.decode ?o = Some ?s, K : negb (Nat.eqb _ 0) = true |- context [known_tags ?o] =>
          unfold known_tags, release_tag; rewrite H; cbn [option_map];
          rewrite (conflict_in _ _ K); reflexivity
      | |- context [release_prompt] =>
          unfold release_prompt; rewrite String.eqb_refl; reflexivity
      end ].

Ltac troubled :=
  left;
  first
    [ match goal with
      | H : existsb failed_spawn ?ev = true |- _ =>
          rewrite ?existsb_app; rewrite (existsb_failed_trouble _ ev H);
          rewrite ?orb_true_r; reflexivity
      end
    | apply existsb_exists; eexists; split; [ find_last | ]; is_trouble ].

Ltac explore :=
  repeat first
    [ wp_simple
    | lazymatch goal with
      | |- wp (bind _ _) _ _ _ => apply wp_bind
      | |- wp (click_confirm _) _ _ _ => apply wp_confirm; [intros [|] | ]
      | |- wp (check_call _) _ _ _ => apply wp_check_call; [intros ? | intros ? ? ? | ]
      | |- wp (check_output _) _ _ _ => apply wp_check_output; [intros ? | intros ? ? ? | ]
      | |- wp (for_each _ _) _ _ _ => apply wp_for_each_calls; [intros ? | intros ? ? ? ]
      | |- wp (match ?x with _ => _ end) _ _ _ => destruct x eqn:?
      end; cbv beta iota zeta ].

(** A run with a known publish target in which nothing went wrong exits
    with status 0. *)
Lemma untroubled_run w a :
  In (publish_to a) (keys PUBLISH_MODES) ->
  forallb (fun e => negb (trouble a e)) (trace w a) = true ->
  status w a = 0%Z.
Proof.
  intros Hpt Hfree.
  assert (K : existsb (trouble a) (trace w a) = true \/ status w a = 0%Z).
  { unfold status.
    apply (main_wp w a (fun tr o =>
      existsb (trouble a) tr = true \/ exit_status o = 0%Z)).
    unfold main.
    assert (Hin : dict_in (publish_to a) PUBLISH_MODES = true).
    { unfold dict_in. apply existsb_exists. exists (publish_to a).
      split; [exact Hpt | apply String.eqb_refl]. }
    destruct (dict_in_get _ _ Hin) as [target Htarget].
    rewrite Hin. unfold getitem. rewrite Htarget.
    explore; first [ right; reflexivity | troubled ]. }
  destruct K as [K|K]; [ | exact K].
  exfalso. exact (trouble_free a _ Hfree K).
Qed.

(** ** The timestamp of a run *)

Example strftime_noon : strftime noon = "2023-04-01T12-00-00"%string.
Proof. reflexivity. Qed.

Lemma digit_inj (a b : N) : (a < 10)%N -> (b < 10)%N -> digit a = digit b -> a = b.
Proof.
  unfold digit. intros Ha Hb H. apply (f_equal N_of_ascii) in H.
  rewrite !N_ascii_embedding in H by lia. lia.
Qed.

Lemma two_digits_inj (a b : N) :
  (a < 100)%N -> (b < 100)%N -> two_digits a = two_digits b -> a = b.
Proof.
  unfold two_digits. intros Ha Hb H. injection H as H1 H0.
  apply digit_inj in H1; [ | apply N.Div0.div_lt_upper_bound; lia
                            | apply N.Div0.div_lt_upper_bound; lia ].
  apply digit_inj in H0; [ | apply N.mod_lt; lia | apply N.mod_lt; lia ].
  rewrite (N.div_mod a 10), (N.div_mod b 10) by lia. rewrite H1, H0. reflexivity.
Qed.

Lemma four_digits_inj (a b : N) :
  (a < 10000)%N -> (b < 10000)%N -> four_digits a = four_digits b -> a = b.
Proof.
  unfold four_digits. intros Ha Hb H. injection H as H3 H2 H10.
  assert (Hlo : (a mod 100 = b mod 100)%N).
  { apply two_digits_inj; [apply N.mod_lt; lia | apply N.mod_lt; lia | ].
    unfold two_digits. rewrite H10. congruence. }
  clear H10.
  apply digit_inj in H3; [ | apply N.Div0.div_lt_upper_bound; lia
                            | apply N.Div0.div_lt_upper_bound; lia ].
  apply digit_inj in H2; [ | apply N.mod_lt; lia | apply N.mod_lt; lia ].
  assert (Hhi : (a / 100 = b / 100)%N).
  { rewrite (N.div_mod (a / 100) 10), (N.div_mod (b / 100) 10) by lia.
    rewrite N.Div0.div_div, H2. change (100 * 10)%N with 1000%N.
    rewrite (N.Div0.div_div b). change (100 * 10)%N with 1000%N. rewrite H3. reflexivity. }
  rewrite (N.div_mod a 100), (N.div_mod b 100) by lia. rewrite Hhi, Hlo. reflexivity.
Qed.

Lemma append_length_inj (a a' b b' : string) :
  String.length a = String.length a' ->
  (a ++ b)%string = (a' ++ b')%string -> a = a' /\ b = b'.
Proof.
  revert a'. induction a as [|c a IH]; intros [|c' a']; cbn [String.length append];
    intros Hl H; try discriminate Hl.
  - split; [reflexivity | exact H].
  - injection Hl as Hl. injection H as Hc H. destruct (IH a' Hl H) as [-> ->].
    subst c'. split; reflexivity.
Qed.

Lemma valid_bounds (d : datetime) :
  valid d = true ->
  (year d < 10000 /\ month d < 100 /\ day d < 100
   /\ hour d < 100 /\ minute d < 100 /\ second d < 100)%N.
Proof.
  unfold valid. intros H.
  repeat match type of H with
         | (_ && _)%bool = true =>
             let K := fresh "K" in apply andb_prop in H; destruct H as [H K];
             apply N.leb_le in K
         end.
  apply N.leb_le in H. lia.
Qed.

Lemma string_tail_inj (c : ascii) (s s' : string) : String c s = String c s' -> s = s'.
Proof. intros H. injection H as H. exact H. Qed.

(** The timestamp tells the instant to the second, and no more. *)
Lemma strftime_to_second (d1 d2 : datetime) :
  to_second d1 = to_second d2 -> strftime d1 = strftime d2.
Proof.
  unfold to_second, strftime. intros H. injection H as -> -> -> -> -> ->. reflexivity.
Qed.

Lemma strftime_inj (d1 d2 : datetime) :
  valid d1 = true -> valid d2 = true ->
  strftime d1 = strftime d2 -> to_second d1 = to_second d2.
Proof.
  intros V1 V2 H.
  destruct (valid_bounds d1 V1) as [Y1 [M1 [D1 [H1 [Mi1 S1]]]]].
  destruct (valid_bounds d2 V2) as [Y2 [M2 [D2 [H2 [Mi2 S2]]]]].
  unfold strftime in H.
  apply append_length_inj in H; [ | reflexivity]. destruct H as [Hy H].
  cbn [append] in H. apply string_tail_inj in H.
  apply append_length_inj in H; [ | reflexivity]. destruct H as [Hm H].
  cbn [append] in H. apply string_tail_inj in H.
  apply append_length_inj in H; [ | reflexivity]. destruct H as [Hd H].
  cbn [append] in H. apply string_tail_inj in H.
  apply append_length_inj in H; [ | reflexivity]. destruct H as [Hh H].
  cbn [append] in H. apply string_tail_inj in H.
  apply append_length_inj in H; [ | reflexivity]. destruct H as [Hmi Hs].
  cbn [append] in Hs. apply string_tail_inj in Hs.
  
  unfold to_second.
  rewrite (four_digits_inj _ _ Y1 Y2 Hy), (two_digits_inj _ _ M1 M2 Hm),
    (two_digits_inj _ _ D1 D2 Hd), (two_digits_inj _ _ H1 H2 Hh),
    (two_digits_inj _ _ Mi1 Mi2 Hmi), (two_digits_inj _ _ S1 S2 Hs).
  reflexivity.
Qed.

(** A run that exits with status 0 has created its working branch, under
    the name derived from the release identifier and the timestamp. *)
Lemma working_branch_created w a :
  status w a = 0%Z ->
  succeeded ["git"; "checkout"; "-b"; working_branch w a]%string (trace w a).
Proof.
  unfold status.
  apply (main_wp w a (fun tr o =>
    exit_status o = 0%Z ->
    succeeded ["git"; "checkout"; "-b"; working_branch w a]%string tr)).
  unfold main.
  repeat (tryif at_any_call then fail else wp_prim).
  all: try (intros K; discriminate K).
  all: apply wp_bind, wp_check_call; [intros ? | intros ? ? ? | ];
    cbv beta iota zeta; try (intros K; discriminate K).
  all: wp_forget; intros _; unfold succeeded, working_branch; eexists; find_in.
Qed.

(** Runs whose timestamps differ share no branch name. *)
Lemma branch_names_differ (w1 w2 : World) (a1 a2 : Args) :
  release_version a1 = release_version a2 ->
  now w1 <> now w2 ->
  working_branch w1 a1 <> working_branch w2 a2
  /\ docs_branch w1 a1 <> docs_branch w2 a2
  /\ (forall e1 e2 name,
        In e1 (trace w1 a1) -> In e2 (trace w2 a2) ->
        created_branch e1 = Some name -> created_branch e2 <> Some name).
Proof.
  intros Hrv Hnow.
  assert (Hw : working_branch w1 a1 <> working_branch w2 a2).
  { unfold working_branch. rewrite Hrv. intros H. apply Hnow.
    exact (working_branch_inj _ _ _ H). }
  assert (Hd : docs_branch w1 a1 <> docs_branch w2 a2).
  { unfold docs_branch. rewrite Hrv. intros H. apply Hnow.
    exact (docs_branch_inj _ _ _ H). }
  split; [exact Hw | ]. split; [exact Hd | ].
  intros e1 e2 name Hin1 Hin2 Hc1 Hc2.
  pose proof (proj1 (forallb_forall _ _) (run_branches w1 a1) e1 Hin1) as K1.
  pose proof (proj1 (forallb_forall _ _) (run_branches w2 a2) e2 Hin2) as K2.
  destruct (created_branch_named _ _ _ _ K1 Hc1) as [E1|E1];
    destruct (created_branch_named _ _ _ _ K2 Hc2) as [E2|E2].
  - apply Hw. rewrite <- E1. exact E2.
  - apply (working_not_docs w1 a1 w2 a2). rewrite <- E1. exact E2.
  - apply (working_not_docs w2 a2 w1 a1). rewrite <- E1, <- E2. reflexivity.
  - apply Hd. rewrite <- E1. exact E2.
Qed.

(** ** Concrete runs *)

(** Pick the member of a concrete trace. *)
Ltac pick := vm_compute; repeat first [ left; reflexivity | right ].

(** * The claims *)

(** C1 (as stated, refuted): the end-to-end scenario of the specification
    (release 1.2.3, next version 1.3.0, no-prompt, clean master) runs
    [git push] for the branch and for the release tag, and ends with
    status 0: with no-prompt set, [verify] answers yes. *)
Lemma no_prompt_scenario_pushes :
  no_prompt scenario_args = true
  /\ In (Spawn ["git"; "push"; DATABRICKS_REMOTE; "master"]%string (Some (0%Z, ""%string)))
        (trace scenario_world scenario_args)
  /\ In (Spawn ["git"; "push"; DATABRICKS_REMOTE; "v1.2.3"]%string (Some (0%Z, ""%string)))
        (trace scenario_world scenario_args)
  /\ status scenario_world scenario_args = 0%Z.
Proof. split; [reflexivity | ]. split; [pick | ]. split; [pick | reflexivity]. Qed.

(** C1 (amended): in a fully automated run (no-prompt set) no prompt is
    shown and every confirmation counts as given, so the push is not
    skipped: once the local branch is updated, the push of the current
    branch to the git remote is run, and a run that reaches the docs step
    has pushed both the current branch and the release tag. *)
Theorem no_prompt_accepts_push (w : World) (a : Args) :
  no_prompt a = true ->
  forallb (fun e => negb (is_confirm e)) (trace w a) = true
  /\ (In (Echo (style_underline "Local branch updated")) (trace w a) ->
      exists out r,
        In (Spawn git_rev_parse (Some (0%Z, out))) (trace w a)
        /\ In (Spawn ["git"; "push"; git_remote a; Py.strip out]%string r) (trace w a))
  /\ (In (Echo (style_underline "Building release docs")) (trace w a) ->
      exists out out1 out2,
        In (Spawn git_rev_parse (Some (0%Z, out))) (trace w a)
        /\ In (Spawn ["git"; "push"; git_remote a; Py.strip out]%string (Some (0%Z, out1)))
              (trace w a)
        /\ In (Spawn ["git"; "push"; git_remote a; release_tag a]%string (Some (0%Z, out2)))
              (trace w a)).
Proof.
  intros Hnp. split; [apply no_prompt_silent; exact Hnp | ].
  apply no_prompt_pushes. exact Hnp.
Qed.

Lemma no_prompt_accepts_push_witness :
  forallb (fun e => negb (is_confirm e)) (trace scenario_world scenario_args) = true
  /\ (exists out r,
        In (Spawn git_rev_parse (Some (0%Z, out))) (trace scenario_world scenario_args)
        /\ In (Spawn ["git"; "push"; git_remote scenario_args; Py.strip out]%string r)
              (trace scenario_world scenario_args))
  /\ (exists out out1 out2,
        In (Spawn git_rev_parse (Some (0%Z, out))) (trace scenario_world scenario_args)
        /\ In (Spawn ["git"; "push"; git_remote scenario_args; Py.strip out]%string
                     (Some (0%Z, out1)))
              (trace scenario_world scenario_args)
        /\ In (Spawn ["git"; "push"; git_remote scenario_args; release_tag scenario_args]%string
                     (Some (0%Z, out2)))
              (trace scenario_world scenario_args)).
Proof.
  destruct (no_prompt_accepts_push scenario_world scenario_args eq_refl) as [H1 [H2 H3]].
  split; [exact H1 | ]. split; [apply H2; pick | apply H3; pick].
Defined.

(** C2 (as stated, refuted): no string can play the part of "the snapshot
    marker" of the claim, tested as a suffix and appended when absent.  The
    input "1.3.0" forces the marker to be "-SNAPSHOT"; the input
    "1.3.0SNAPSHOT" does not end in it and is nevertheless left unchanged. *)
Lemma no_single_snapshot_marker :
  ~ exists marker : string,
      forall s : string,
        (~ ends_in s marker -> normalize_next_version s = (s ++ marker)%string)
        /\ (ends_in s marker -> normalize_next_version s = s).
Proof.
  intros [m H].
  assert (Hm : m = "-SNAPSHOT"%string).
  { destruct (H "1.3.0"%string) as [Hno Hyes].
    destruct (Py.endswith "1.3.0" m) eqn:E.
    - apply endswith_spec in E. specialize (Hyes E). discriminate Hyes.
    - apply endswith_false in E. specialize (Hno E).
      change (normalize_next_version "1.3.0") with ("1.3.0" ++ "-SNAPSHOT")%string in Hno.
      apply append_inj_l in Hno. symmetry. exact Hno. }
  subst m. destruct (H "1.3.0SNAPSHOT"%string) as [Hno _].
  assert (E : ~ ends_in "1.3.0SNAPSHOT" "-SNAPSHOT").
  { apply endswith_false. reflexivity. }
  specialize (Hno E). discriminate Hno.
Qed.

(** C2 (amended): an input that does not end in "SNAPSHOT" gets "-SNAPSHOT"
    appended, exactly once; an input that ends in "SNAPSHOT", with or
    without the hyphen, is left unchanged. *)
Theorem next_version_normalized (s : string) :
  (~ ends_in s "SNAPSHOT" -> normalize_next_version s = (s ++ "-SNAPSHOT")%string)
  /\ (ends_in s "SNAPSHOT" -> normalize_next_version s = s).
Proof.
  unfold normalize_next_version. split; intros H.
  - apply endswith_false in H. rewrite H. reflexivity.
  - apply endswith_spec in H. rewrite H. reflexivity.
Qed.

Lemma next_version_normalized_witness :
  normalize_next_version "1.3.0" = "1.3.0-SNAPSHOT"%string
  /\ normalize_next_version "1.3.0-SNAPSHOT" = "1.3.0-SNAPSHOT"%string.
Proof.
  split.
  - apply (proj1 (next_version_normalized "1.3.0")).
    apply endswith_false. reflexivity.
  - apply (proj2 (next_version_normalized "1.3.0-SNAPSHOT")).
    exists "1.3.0-"%string. reflexivity.
Defined.

(** C3 (as stated, refuted): two invocations for the release 1.2.3, one
    started at noon and one a quarter of a second later.  The start
    timestamps differ, yet both runs derive the same working-branch name
    and the same docs-branch name, and both create a branch of that one
    name: the timestamp in the names is cut to the second. *)
Lemma same_second_same_names :
  noon <> noon_and_a_quarter
  /\ working_branch (started_at noon scenario_world) scenario_args
     = working_branch (started_at noon_and_a_quarter scenario_world) scenario_args
  /\ docs_branch (started_at noon scenario_world) scenario_args
     = docs_branch (started_at noon_and_a_quarter scenario_world) scenario_args
  /\ In (Spawn ["git"; "checkout"; "-b";
                "WORKING_BRANCH_RELEASE_1.2.3_@2023-04-01T12-00-00"]%string
               (Some (0%Z, ""%string)))
        (trace (started_at noon scenario_world) scenario_args)
  /\ In (Spawn ["git"; "checkout"; "-b";
                "WORKING_BRANCH_RELEASE_1.2.3_@2023-04-01T12-00-00"]%string
               (Some (0%Z, ""%string)))
        (trace (started_at noon_and_a_quarter scenario_world) scenario_args).
Proof.
  split; [discriminate | ].
  split; [reflexivity | ].
  split; [reflexivity | ].
  split; pick.
Qed.

(** C3 (amended): for one release identifier, two invocations whose start
    timestamps differ when read to the second (the resolution of the
    format of line 47) derive different working-branch names and
    different docs-branch names, and no branch created by the one run has
    the name of a branch created by the other; two invocations started
    within the same second derive the same names.  The names are those
    the runs use: a run that exits with status 0 has created its working
    branch under the derived name. *)
Theorem branch_names_unique (d1 d2 : datetime) (w1 w2 : World) (a1 a2 : Args) :
  valid d1 = true ->
  valid d2 = true ->
  release_version a1 = release_version a2 ->
  (to_second d1 <> to_second d2 ->
   working_branch (started_at d1 w1) a1 <> working_branch (started_at d2 w2) a2
   /\ docs_branch (started_at d1 w1) a1 <> docs_branch (started_at d2 w2) a2
   /\ (forall e1 e2 name,
         In e1 (trace (started_at d1 w1) a1) -> In e2 (trace (started_at d2 w2) a2) ->
         created_branch e1 = Some name -> created_branch e2 <> Some name))
  /\ (to_second d1 = to_second d2 ->
      working_branch (started_at d1 w1) a1 = working_branch (started_at d2 w2) a2
      /\ docs_branch (started_at d1 w1) a1 = docs_branch (started_at d2 w2) a2)
  /\ (status (started_at d1 w1) a1 = 0%Z ->
      succeeded ["git"; "checkout"; "-b"; working_branch (started_at d1 w1) a1]%string
                (trace (started_at d1 w1) a1))
  /\ (status (started_at d2 w2) a2 = 0%Z ->
      succeeded ["git"; "checkout"; "-b"; working_branch (started_at d2 w2) a2]%string
                (trace (started_at d2 w2) a2)).
Proof.
  intros V1 V2 Hrv. split; [ | split; [ | split]].
  - intros Hne. apply (branch_names_differ _ _ _ _ Hrv).
    cbn [now started_at]. intros H. apply Hne. exact (strftime_inj d1 d2 V1 V2 H).
  - intros Heq. unfold working_branch, docs_branch. cbn [now started_at].
    rewrite Hrv, (strftime_to_second d1 d2 Heq). split; reflexivity.
  - apply working_branch_created.
  - apply working_branch_created.
Qed.

Lemma branch_names_unique_witness :
  (working_branch (started_at noon scenario_world) scenario_args
   <> working_branch (started_at noon_and_a_second scenario_world) scenario_args
   /\ docs_branch (started_at noon scenario_world) scenario_args
      <> docs_branch (started_at noon_and_a_second scenario_world) scenario_args
   /\ created_branch
        (Spawn ["git"; "checkout"; "-b";
                "WORKING_BRANCH_RELEASE_1.2.3_@2023-04-01T12-00-01"]%string
               (Some (0%Z, ""%string)))
      <> Some "WORKING_BRANCH_RELEASE_1.2.3_@2023-04-01T12-00-00"%string)
  /\ (working_branch (started_at noon scenario_world) scenario_args
      = working_branch (started_at noon_and_a_quarter scenario_world) scenario_args
      /\ docs_branch (started_at noon scenario_world) scenario_args
         = docs_branch (started_at noon_and_a_quarter scenario_world) scenario_args)
  /\ succeeded ["git"; "checkout"; "-b";
                working_branch (started_at noon scenario_world) scenario_args]%string
               (trace (started_at noon scenario_world) scenario_args).
Proof.
  destruct (branch_names_unique noon noon_and_a_second scenario_world scenario_world
              scenario_args scenario_args eq_refl eq_refl eq_refl)
    as [Hne [_ [Hrun _]]].
  destruct (branch_names_unique noon noon_and_a_quarter scenario_world scenario_world
              scenario_args scenario_args eq_refl eq_refl eq_refl)
    as [_ [Heq _]].
  split; [ | split].
  - destruct Hne as [H1 [H2 H3]]; [discriminate | ].
    split; [exact H1 | ]. split; [exact H2 | ].
    apply (H3 (Spawn ["git"; "checkout"; "-b";
                      "WORKING_BRANCH_RELEASE_1.2.3_@2023-04-01T12-00-00"]%string
                     (Some (0%Z, ""%string)))).
    + pick.
    + pick.
    + reflexivity.
  - apply Heq. reflexivity.
  - apply Hrun. vm_compute. reflexivity.
Defined.

(** C4: with a publish target outside the publish modes, the process
    exits with status 1 and has run no command at all, so nothing in the
    repository was changed. *)
Theorem unknown_target_exits (w : World) (a : Args) :
  ~ In (publish_to a) (keys PUBLISH_MODES) ->
  status w a = 1%Z /\ forallb (fun e => negb (is_spawn e)) (trace w a) = true.
Proof.
  intros H. unfold status, trace. rewrite (unknown_target_run w a H). split; reflexivity.
Qed.

Lemma unknown_target_exits_witness :
  status scenario_world unknown_target_args = 1%Z
  /\ forallb (fun e => negb (is_spawn e)) (trace scenario_world unknown_target_args) = true.
Proof.
  apply (unknown_target_exits scenario_world unknown_target_args).
  cbv. intuition discriminate.
Defined.

(** C5: when the working-tree diff that the run queried is not empty, the
    process exits with status 1 and no branch is created. *)
Theorem uncommitted_changes_exit (w : World) (a : Args) (rc : Z) (out : string) :
  In (Spawn git_diff (Some (rc, out))) (trace w a) ->
  out <> ""%string ->
  status w a = 1%Z /\ forallb (fun e => negb (creates_branch e)) (trace w a) = true.
Proof. apply dirty_tree_run. Qed.

Lemma uncommitted_changes_exit_witness :
  status dirty_world scenario_args = 1%Z
  /\ forallb (fun e => negb (creates_branch e)) (trace dirty_world scenario_args) = true.
Proof.
  apply (uncommitted_changes_exit dirty_world scenario_args 0%Z
           (" README.md | 2 +-" ++ Py.nl)%string).
  - pick.
  - discriminate.
Defined.

(** C6: when the release tag, "v" followed by the release identifier, is
    among the tags the run learnt from [git tag], the process exits with
    status 1 and the working branch has not been created (no branch has). *)
Theorem existing_tag_exits (w : World) (a : Args) (rc : Z) (out : string)
    (tags : list string) :
  In (Spawn git_tag (Some (rc, out))) (trace w a) ->
  known_tags out = Some tags ->
  In ("v" ++ release_version a)%string tags ->
  status w a = 1%Z /\ forallb (fun e => negb (creates_branch e)) (trace w a) = true.
Proof.
  intros Hin Hknown Htag. rewrite <- percent_release_tag in Htag.
  exact (tag_conflict_run w a rc out tags Hin Hknown Htag).
Qed.

Lemma existing_tag_exits_witness :
  status tagged_world scenario_args = 1%Z
  /\ forallb (fun e => negb (creates_branch e)) (trace tagged_world scenario_args) = true.
Proof.
  apply (existing_tag_exits tagged_world scenario_args 0%Z
           ("v1.2.2" ++ Py.nl ++ "v1.2.3" ++ Py.nl)%string ["v1.2.2"; "v1.2.3"]%string).
  - pick.
  - reflexivity.
  - pick.
Defined.

(** C7 (as stated, refuted): a no-prompt run on the named branch [dev]
    shows no prompt: it goes on without asking, and ends with status 0. *)
Lemma off_master_no_prompt_run :
  no_prompt scenario_args = true
  /\ In (Spawn git_rev_parse (Some (0%Z, "dev" ++ Py.nl)%string))
        (trace (dev_world nobody) scenario_args)
  /\ Py.strip ("dev" ++ Py.nl) = "dev"%string
  /\ forallb (fun e => negb (is_confirm e)) (trace (dev_world nobody) scenario_args) = true
  /\ status (dev_world nobody) scenario_args = 0%Z.
Proof.
  split; [reflexivity | ]. split; [pick | ]. split; [reflexivity | ].
  split; reflexivity.
Qed.

(** C7 (amended): the run queries the current branch and exits with
    status 1 when the answer is the detached [HEAD]; on a named branch
    other than master it prompts to continue unless no-prompt is set, and
    exits with status 1 when the operator declines; with no-prompt set it
    goes on without a prompt. *)
Theorem branch_checks (w : World) (a : Args) :
  (In (publish_to a) (keys PUBLISH_MODES) ->
   no_prompt a = true \/ In (Confirm (release_prompt a) (Some true)) (trace w a) ->
   exists r, In (Spawn git_rev_parse r) (trace w a))
  /\ (forall rc out,
        In (Spawn git_rev_parse (Some (rc, out))) (trace w a) ->
        Py.strip out = "HEAD"%string ->
        status w a = 1%Z)
  /\ (forall out,
        no_prompt a = false ->
        In (Spawn git_rev_parse (Some (0%Z, out))) (trace w a) ->
        Py.strip out <> "HEAD"%string ->
        Py.strip out <> "master"%string ->
        exists ans, In (Confirm master_prompt ans) (trace w a))
  /\ (In (Confirm master_prompt (Some false)) (trace w a) -> status w a = 1%Z)
  /\ (forall out,
        no_prompt a = true ->
        In (Spawn git_rev_parse (Some (0%Z, out))) (trace w a) ->
        Py.strip out <> "HEAD"%string ->
        Py.strip out <> "master"%string ->
        forallb (fun e => negb (is_confirm e)) (trace w a) = true
        /\ exists r, In (Spawn git_diff r) (trace w a)).
Proof.
  split; [ | split; [ | split; [ | split]]].
  - apply branch_queried.
  - intros rc out. apply detached_run.
  - intros out. apply off_master_prompted.
  - apply master_declined_run.
  - intros out Hnp Hin Hhead _. split.
    + apply no_prompt_silent. exact Hnp.
    + exact (off_master_unprompted w a out Hnp Hin Hhead).
Qed.

Lemma branch_checks_witness :
  (exists r, In (Spawn git_rev_parse r) (trace scenario_world scenario_args))
  /\ status detached_world scenario_args = 1%Z
  /\ (exists ans,
        In (Confirm master_prompt ans)
           (trace (dev_world (accepts_all_but master_prompt)) interactive_args))
  /\ status (dev_world (accepts_all_but master_prompt)) interactive_args = 1%Z
  /\ (forallb (fun e => negb (is_confirm e)) (trace (dev_world nobody) scenario_args) = true
      /\ exists r, In (Spawn git_diff r) (trace (dev_world nobody) scenario_args)).
Proof.
  split; [ | split; [ | split; [ | split]]].
  - apply (proj1 (branch_checks scenario_world scenario_args)).
    + pick.
    + left. reflexivity.
  - apply (proj1 (proj2 (branch_checks detached_world scenario_args))
                 0%Z ("HEAD" ++ Py.nl)%string).
    + pick.
    + reflexivity.
  - apply (proj1 (proj2 (proj2 (branch_checks (dev_world (accepts_all_but master_prompt))
                                               interactive_args)))
                 ("dev" ++ Py.nl)%string).
    + reflexivity.
    + pick.
    + discriminate.
    + discriminate.
  - apply (proj1 (proj2 (proj2 (proj2 (branch_checks (dev_world (accepts_all_but master_prompt))
                                                      interactive_args))))).
    pick.
  - apply (proj2 (proj2 (proj2 (proj2 (branch_checks (dev_world nobody) scenario_args))))
                 ("dev" ++ Py.nl)%string).
    + reflexivity.
    + pick.
    + discriminate.
    + discriminate.
Defined.

(** C8: the exit status is 0 on success (a known publish target and a
    run in which nothing went wrong: no command failed, the preconditions
    held, no prompt was interrupted and no mandatory confirmation was
    declined) and when the operator declines to build the docs; it is 1
    for an unknown publish target, a detached head, uncommitted changes, an
    existing release tag, and when the operator declines the release
    confirmation or declines to continue off master. *)
Theorem exit_codes (w : World) (a : Args) :
  (In (publish_to a) (keys PUBLISH_MODES) ->
   forallb (fun e => negb (trouble a e)) (trace w a) = true ->
   status w a = 0%Z)
  /\ (In (Confirm docs_prompt (Some false)) (trace w a) -> status w a = 0%Z)
  /\ (~ In (publish_to a) (keys PUBLISH_MODES) -> status w a = 1%Z)
  /\ (forall rc out,
        In (Spawn git_rev_parse (Some (rc, out))) (trace w a) ->
        Py.strip out = "HEAD"%string -> status w a = 1%Z)
  /\ (forall rc out,
        In (Spawn git_diff (Some (rc, out))) (trace w a) ->
        out <> ""%string -> status w a = 1%Z)
  /\ (forall rc out tags,
        In (Spawn git_tag (Some (rc, out))) (trace w a) ->
        known_tags out = Some tags ->
        In (release_tag a) tags -> status w a = 1%Z)
  /\ (In (Confirm (release_prompt a) (Some false)) (trace w a) -> status w a = 1%Z)
  /\ (In (Confirm master_prompt (Some false)) (trace w a) -> status w a = 1%Z).
Proof.
  repeat split.
  - apply untroubled_run.
  - apply docs_declined_run.
  - intros H. unfold status. rewrite (unknown_target_run w a H). reflexivity.
  - apply detached_run.
  - intros rc out Hin Hne. apply (dirty_tree_run w a rc out Hin Hne).
  - intros rc out tags Hin Hk Ht. apply (tag_conflict_run w a rc out tags Hin Hk Ht).
  - apply release_declined_run.
  - apply master_declined_run.
Qed.

Lemma exit_codes_witness :
  status scenario_world scenario_args = 0%Z
  /\ status (clean_master (accepts_all_but docs_prompt)) interactive_args = 0%Z
  /\ status scenario_world unknown_target_args = 1%Z
  /\ status detached_world scenario_args = 1%Z
  /\ status dirty_world scenario_args = 1%Z
  /\ status tagged_world scenario_args = 1%Z
  /\ status (clean_master (accepts_all_but (release_prompt interactive_args)))
            interactive_args = 1%Z
  /\ status (dev_world (accepts_all_but master_prompt)) interactive_args = 1%Z.
Proof.
  split; [ | split; [ | split; [ | split; [ | split; [ | split; [ | split]]]]]].
  - apply (proj1 (exit_codes scenario_world scenario_args)).
    + pick.
    + reflexivity.
  - apply (proj1 (proj2 (exit_codes (clean_master (accepts_all_but docs_prompt))
                                    interactive_args))).
    pick.
  - apply (proj1 (proj2 (proj2 (exit_codes scenario_world unknown_target_args)))).
    cbv. intuition discriminate.
  - apply (proj1 (proj2 (proj2 (proj2 (exit_codes detached_world scenario_args))))
                 0%Z ("HEAD" ++ Py.nl)%string).
    + pick.
    + reflexivity.
  - apply (proj1 (proj2 (proj2 (proj2 (proj2 (exit_codes dirty_world scenario_args)))))
                 0%Z (" README.md | 2 +-" ++ Py.nl)%string).
    + pick.
    + discriminate.
  - apply (proj1 (proj2 (proj2 (proj2 (proj2 (proj2
                   (exit_codes tagged_world scenario_args))))))
                 0%Z ("v1.2.2" ++ Py.nl ++ "v1.2.3" ++ Py.nl)%string
                 ["v1.2.2"; "v1.2.3"]%string).
    + pick.
    + reflexivity.
    + pick.
  - apply (proj1 (proj2 (proj2 (proj2 (proj2 (proj2 (proj2
                   (exit_codes (clean_master (accepts_all_but (release_prompt interactive_args)))
                               interactive_args)))))))).
    pick.
  - apply (proj2 (proj2 (proj2 (proj2 (proj2 (proj2 (proj2
                   (exit_codes (dev_world (accepts_all_but master_prompt))
                               interactive_args)))))))).
    pick.
Defined.

(** C9: without interaction (no-prompt set) every confirmation check
    returns true at once, whatever the prompt; so a no-prompt run on a
    named branch other than master is not stopped at the master check: it
    shows no prompt and goes on to query the working-tree diff. *)
Theorem no_prompt_confirms (w : World) (a : Args) :
  (forall prompt h,
     no_prompt a = true -> verify prompt (negb (no_prompt a)) w h = ([], Ret true))
  /\ (forall out,
        no_prompt a = true ->
        In (Spawn git_rev_parse (Some (0%Z, out))) (trace w a) ->
        Py.strip out <> "HEAD"%string ->
        Py.strip out <> "master"%string ->
        forallb (fun e => negb (is_confirm e)) (trace w a) = true
        /\ exists r, In (Spawn git_diff r) (trace w a)).
Proof.
  split.
  - intros prompt h ->. apply verify_non_interactive.
  - intros out Hnp Hin Hhead _. split.
    + apply no_prompt_silent. exact Hnp.
    + exact (off_master_unprompted w a out Hnp Hin Hhead).
Qed.

Lemma no_prompt_confirms_witness :
  verify master_prompt (negb (no_prompt scenario_args)) (dev_world nobody) [] = ([], Ret true)
  /\ forallb (fun e => negb (is_confirm e)) (trace (dev_world nobody) scenario_args) = true
  /\ exists r, In (Spawn git_diff r) (trace (dev_world nobody) scenario_args).
Proof.
  split.
  - apply (proj1 (no_prompt_confirms (dev_world nobody) scenario_args)). reflexivity.
  - apply (proj2 (no_prompt_confirms (dev_world nobody) scenario_args)
                 ("dev" ++ Py.nl)%string).
    + reflexivity.
    + pick.
    + discriminate.
    + discriminate.
Defined.

(** C10: normalising an already normalised next version changes nothing. *)
Theorem normalize_next_version_idempotent (s : string) :
  normalize_next_version (normalize_next_version s) = normalize_next_version s.
Proof.
  unfold normalize_next_version at 1.
  rewrite normalized_ends_in_snapshot. reflexivity.
Qed.

(** * Further properties of the script *)

(** ** A failed command ends the run *)

Section FailFast.
Context {A B : Type}.

Lemma fail_fast_ret (a : A) : fail_fast (ret a).
Proof. intros w h. left. reflexivity. Qed.

Lemma fail_fast_raise (e : exn) : fail_fast (@raise A e).
Proof. intros w h. left. reflexivity. Qed.

Lemma fail_fast_sys_exit (c : Z) : fail_fast (@sys_exit A c).
Proof. intros w h. left. reflexivity. Qed.

Lemma fail_fast_bind (m : M A) (f : A -> M B) :
  fail_fast m -> (forall a, fail_fast (f a)) -> fail_fast (bind m f).
Proof.
  intros Hm Hf w h. unfold bind. specialize (Hm w h).
  destruct (m w h) as [e1 [a|c|x]]; cbn [fst snd] in *.
  - specialize (Hf a w (h ++ e1)).
    destruct (f a w (h ++ e1)) as [e2 o2]; cbn [fst snd] in *.
    destruct Hm as [Hm | [pre [e [x [_ [_ [_ Hx]]]]]]]; [ | discriminate Hx].
    destruct Hf as [Hf | [pre [e [x [Hev [Hpre [He Hx]]]]]]].
    + left. unfold clean in *. rewrite forallb_app, Hm, Hf. reflexivity.
    + right. exists (e1 ++ pre), e, x. subst e2.
      split; [apply app_assoc | ]. split; [ | split; assumption].
      unfold clean in *. rewrite forallb_app, Hm, Hpre. reflexivity.
  - destruct Hm as [Hm | [pre [e [x [_ [_ [_ Hx]]]]]]]; [left; exact Hm | discriminate Hx].
  - destruct Hm as [Hm | [pre [e [y [Hev [Hpre [He Hx]]]]]]]; [left; exact Hm | ].
    right. exists pre, e, y. injection Hx as ->. repeat split; assumption.
Qed.
End FailFast.

Lemma fail_fast_echo x : fail_fast (prominentPrint x).
Proof. intros w h. left. reflexivity. Qed.

Lemma fail_fast_now : fail_fast datetime_now_strftime.
Proof. intros w h. left. reflexivity. Qed.

Lemma fail_fast_confirm prompt : fail_fast (click_confirm prompt).
Proof. intros w h. left. reflexivity. Qed.

Lemma fail_fast_check_call argv : fail_fast (check_call argv).
Proof.
  intros w h. unfold check_call; cbn [fst snd].
  destruct (spawn_result w h argv) as [[rc out]|].
  - destruct (Z.eqb_spec rc 0) as [->|Hrc].
    + left. reflexivity.
    + right. exists [], (Spawn argv (Some (rc, out))), (CalledProcessError rc argv).
      repeat split. cbn. apply Z.eqb_neq in Hrc. rewrite Hrc. reflexivity.
  - right. exists [], (Spawn argv None), (OSError argv). repeat split.
Qed.

Lemma fail_fast_check_output argv : fail_fast (check_output argv).
Proof.
  intros w h. unfold check_output; cbn [fst snd].
  destruct (spawn_result w h argv) as [[rc out]|].
  - destruct (Z.eqb_spec rc 0) as [->|Hrc].
    + left. reflexivity.
    + right. exists [], (Spawn argv (Some (rc, out))), (CalledProcessError rc argv).
      repeat split. cbn. apply Z.eqb_neq in Hrc. rewrite Hrc. reflexivity.
  - right. exists [], (Spawn argv None), (OSError argv). repeat split.
Qed.

Lemma fail_fast_when c body : fail_fast body -> fail_fast (when c body).
Proof. intros H. destruct c; [exact H | apply fail_fast_ret]. Qed.

Lemma fail_fast_verify prompt interactive : fail_fast (verify prompt interactive).
Proof.
  unfold verify. destruct interactive; [apply fail_fast_confirm | apply fail_fast_ret].
Qed.

Lemma fail_fast_decode b : fail_fast (decode b).
Proof. unfold decode. destruct (Py.decode b); [apply fail_fast_ret | apply fail_fast_raise]. Qed.

Lemma fail_fast_getitem d k : fail_fast (getitem d k).
Proof.
  unfold getitem. destruct (dict_get d k); [apply fail_fast_ret | apply fail_fast_raise].
Qed.

Lemma fail_fast_for_each {A} (l : list A) (body : A -> M unit) :
  (forall x, fail_fast (body x)) -> fail_fast (for_each l body).
Proof.
  intros H. induction l as [|x l IH]; cbn [for_each].
  - apply fail_fast_ret.
  - apply fail_fast_bind; auto.
Qed.

Ltac fail_fast_tac :=
  repeat first
    [ apply fail_fast_bind; [ | intros ? ]
    | apply fail_fast_ret | apply fail_fast_raise | apply fail_fast_sys_exit
    | apply fail_fast_now | apply fail_fast_echo | apply fail_fast_confirm
    | apply fail_fast_check_call | apply fail_fast_check_output
    | apply fail_fast_verify | apply fail_fast_decode | apply fail_fast_getitem
    | apply fail_fast_when
    | apply fail_fast_for_each; intros ?
    | match goal with |- fail_fast (if ?c then _ else _) => destruct c end
    | progress cbv beta zeta ].

Lemma main_fail_fast rv nv pt np remote docs sv :
  fail_fast (main rv nv pt np remote docs sv).
Proof. unfold main. fail_fast_tac. Qed.

(** A failed command in a clean stretch followed by one event is that event. *)
Lemma failed_is_last (pre : list event) (e e' : event) :
  clean pre = true -> failed_spawn e = true -> In e (pre ++ [e']) -> e = e'.
Proof.
  intros Hpre He Hin. apply in_app_or in Hin. destruct Hin as [Hin|[Hin|[]]].
  - unfold clean in Hpre. rewrite forallb_forall in Hpre.
    specialize (Hpre e Hin). rewrite He in Hpre. discriminate Hpre.
  - symmetry. exact Hin.
Qed.

(** X1: every failure of an external command is fatal: a command that
    fails (non-zero exit code, or cannot be started) is the last event of
    the run, no failure came before it, and the process exits with
    status 1. *)
Theorem command_failure_is_fatal (w : World) (a : Args) (e : event) :
  In e (trace w a) ->
  failed_spawn e = true ->
  status w a = 1%Z
  /\ exists pre, trace w a = pre ++ [e] /\ clean pre = true.
Proof.
  intros Hin He. unfold status, trace in *. unfold run in *.
  destruct (main_fail_fast (release_version a) (next_version a) (publish_to a)
              (no_prompt a) (git_remote a) (publish_docs a) (spark_version a) w [])
    as [Hc | [pre [e' [x [Hev [Hpre [He' Hx]]]]]]].
  - exfalso. unfold clean in Hc. rewrite forallb_forall in Hc.
    specialize (Hc e Hin). rewrite He in Hc. discriminate Hc.
  - rewrite Hev in Hin. pose proof (failed_is_last pre e e' Hpre He Hin) as ->.
    rewrite Hx. split; [reflexivity | ]. exists pre. split; assumption.
Qed.

Lemma command_failure_is_fatal_witness :
  status (breaking ["git"; "merge"; "--ff"; "WORKING_BRANCH_RELEASE_1.2.3_@2023-04-01T12-00-00"]%string
                   1%Z scenario_world) scenario_args = 1%Z
  /\ exists pre,
       trace (breaking ["git"; "merge"; "--ff";
                        "WORKING_BRANCH_RELEASE_1.2.3_@2023-04-01T12-00-00"]%string
                       1%Z scenario_world) scenario_args
       = pre ++ [Spawn ["git"; "merge"; "--ff";
                        "WORKING_BRANCH_RELEASE_1.2.3_@2023-04-01T12-00-00"]%string
                       (Some (1%Z, ""%string))]
       /\ clean pre = true.
Proof.
  apply (command_failure_is_fatal
           (breaking ["git"; "merge"; "--ff";
                      "WORKING_BRANCH_RELEASE_1.2.3_@2023-04-01T12-00-00"]%string
                     1%Z scenario_world) scenario_args).
  - pick.
  - reflexivity.
Defined.

(** ** How a run can end *)

Section Ends.
Context (q : stop -> bool).

Lemma ends_ret {A} (a : A) : ends q (ret a).
Proof. intros w h. exact I. Qed.

Lemma ends_raise {A} e : q (Raised e) = true -> ends q (@raise A e).
Proof. intros H w h. exact H. Qed.

Lemma ends_sys_exit {A} c : q (Exited c) = true -> ends q (@sys_exit A c).
Proof. intros H w h. exact H. Qed.

Lemma ends_now : ends q datetime_now_strftime.
Proof. intros w h. exact I. Qed.

Lemma ends_echo x : ends q (prominentPrint x).
Proof. intros w h. exact I. Qed.

Lemma ends_bind {A B} (m : M A) (f : A -> M B) :
  ends q m -> (forall a, ends q (f a)) -> ends q (bind m f).
Proof.
  intros Hm Hf w h. unfold bind. specialize (Hm w h).
  destruct (m w h) as [e1 [a|c|x]]; cbn [fst snd stop_of] in *.
  - specialize (Hf a w (h ++ e1)).
    destruct (f a w (h ++ e1)) as [e2 o2]; cbn [fst snd] in *. exact Hf.
  - exact Hm.
  - exact Hm.
Qed.

Lemma ends_confirm prompt : q (Raised Abort) = true -> ends q (click_confirm prompt).
Proof.
  intros H w h. unfold click_confirm; cbn [snd].
  destruct (confirm_answer w h prompt); [exact I | exact H].
Qed.

Lemma ends_check_call argv :
  (forall rc, rc <> 0%Z -> q (Raised (CalledProcessError rc argv)) = true) ->
  q (Raised (OSError argv)) = true ->
  ends q (check_call argv).
Proof.
  intros H1 H2 w h. unfold check_call; cbn [snd].
  destruct (spawn_result w h argv) as [[rc out]|]; [ | exact H2].
  destruct (Z.eqb_spec rc 0); [exact I | apply H1; assumption].
Qed.

Lemma ends_check_output argv :
  (forall rc, rc <> 0%Z -> q (Raised (CalledProcessError rc argv)) = true) ->
  q (Raised (OSError argv)) = true ->
  ends q (check_output argv).
Proof.
  intros H1 H2 w h. unfold check_output; cbn [snd].
  destruct (spawn_result w h argv) as [[rc out]|]; [ | exact H2].
  destruct (Z.eqb_spec rc 0); [exact I | apply H1; assumption].
Qed.

Lemma ends_when c body : ends q body -> ends q (when c body).
Proof. intros H. destruct c; [exact H | apply ends_ret]. Qed.

Lemma ends_verify prompt interactive :
  (interactive = true -> q (Raised Abort) = true) -> ends q (verify prompt interactive).
Proof.
  intros H. unfold verify. destruct interactive; cbn [negb].
  - apply ends_confirm. auto.
  - apply ends_ret.
Qed.

Lemma ends_decode b : q (Raised UnicodeDecodeError) = true -> ends q (decode b).
Proof.
  intros H. unfold decode. destruct (Py.decode b); [apply ends_ret | apply ends_raise, H].
Qed.

Lemma ends_for_each {A} (l : list A) (body : A -> M unit) :
  (forall x, ends q (body x)) -> ends q (for_each l body).
Proof.
  intros H. induction l as [|x l IH]; cbn [for_each].
  - apply ends_ret.
  - apply ends_bind; auto.
Qed.
End Ends.

(** A command that failed did not give 0. *)
Ltac failed_code :=
  let rc := fresh "rc" in let H := fresh "H" in
  intros rc H; cbn [expected_stop]; apply Z.eqb_neq in H; rewrite H; reflexivity.

Ltac ends_tac :=
  repeat first
    [ apply ends_bind; [ | intros ? ]
    | apply ends_ret | apply ends_now | apply ends_echo
    | apply ends_sys_exit; reflexivity
    | apply ends_raise; reflexivity
    | apply ends_decode; reflexivity
    | apply ends_check_call; [ failed_code | reflexivity ]
    | apply ends_check_output; [ failed_code | reflexivity ]
    | apply ends_verify;
      let Hi := fresh in intros Hi; first [ discriminate Hi | reflexivity ]
    | apply ends_when
    | apply ends_for_each; intros ?
    | match goal with |- ends _ (if ?c then _ else _) => destruct c end
    | progress cbv beta zeta ].

(** The stops of [main] once the publish target is known to be one of
    the modes: the later lookup of the target cannot fail. *)
Lemma main_ends rv nv pt np remote docs sv :
  dict_in pt PUBLISH_MODES = true ->
  ends (expected_stop np) (main rv nv pt np remote docs sv).
Proof.
  intros Hin. unfold main.
  destruct (dict_in_get _ _ Hin) as [target Htarget].
  unfold getitem. rewrite Htarget.
  destruct np; ends_tac.
Qed.

Lemma run_stops w a :
  match stop_of (snd (run w a)) with
  | Some s => expected_stop (no_prompt a) s = true
  | None => True
  end.
Proof.
  destruct (dict_in (publish_to a) PUBLISH_MODES) eqn:Hin.
  - apply (main_ends _ _ _ _ _ _ _ Hin).
  - assert (Hout : ~ In (publish_to a) (keys PUBLISH_MODES)).
    { intros H. apply in_keys in H. rewrite H in Hin. discriminate Hin. }
    rewrite (unknown_target_run w a Hout). reflexivity.
Qed.

(** X2: whatever happens, the process exits with status 0 or 1; the exit
    code of a command that failed is not handed on. *)
Theorem status_is_0_or_1 (w : World) (a : Args) :
  status w a = 0%Z \/ status w a = 1%Z.
Proof.
  unfold status. pose proof (run_stops w a) as H.
  destruct (snd (run w a)) as [u|c|x]; cbn [stop_of exit_status] in *.
  - left. reflexivity.
  - cbn [expected_stop] in H. apply orb_prop in H.
    destruct H as [H|H]; apply Z.eqb_eq in H; auto.
  - right. reflexivity.
Qed.

(** X3: the lookup of the publish target never fails (no run ends in a
    [KeyError]); the exception of a failed command carries its non-zero
    code; and with no-prompt set no run ends by an interrupted prompt. *)
Theorem run_exceptions (w : World) (a : Args) :
  (forall k, snd (run w a) <> Raise (KeyError k))
  /\ (forall rc cmd, snd (run w a) = Raise (CalledProcessError rc cmd) -> rc <> 0%Z)
  /\ (no_prompt a = true -> snd (run w a) <> Raise Abort).
Proof.
  pose proof (run_stops w a) as H. split; [ | split].
  - intros k Hk. rewrite Hk in H. discriminate H.
  - intros rc cmd Hk. rewrite Hk in H. cbn in H.
    apply negb_true_iff, Z.eqb_neq in H. exact H.
  - intros Hnp Hk. rewrite Hk, Hnp in H. discriminate H.
Qed.

Lemma run_exceptions_witness :
  snd (run (breaking ["./dev/build-docs.sh"]%string 2%Z scenario_world) scenario_args)
    = Raise (CalledProcessError 2%Z ["./dev/build-docs.sh"]%string)
  /\ 2%Z <> 0%Z
  /\ snd (run scenario_world scenario_args) <> Raise Abort.
Proof.
  split; [reflexivity | ]. split.
  - apply (proj1 (proj2 (run_exceptions
             (breaking ["./dev/build-docs.sh"]%string 2%Z scenario_world) scenario_args))
           2%Z ["./dev/build-docs.sh"]%string).
    reflexivity.
  - apply (proj2 (proj2 (run_exceptions scenario_world scenario_args))). reflexivity.
Defined.

(** ** The builds for the Spark versions *)

Lemma filter_none {A} (p q : A -> bool) (l : list A) :
  (forall x, q x = true -> p x = false) -> forallb q l = true -> filter p l = [].
Proof.
  intros Hpq. induction l as [|x l IH]; cbn [forallb filter]; intros H; [reflexivity | ].
  apply andb_prop in H. destruct H as [Hx Hl]. rewrite (Hpq x Hx). auto.
Qed.

Lemma filter_all {A} (p : A -> bool) (l : list A) :
  forallb p l = true -> filter p l = l.
Proof.
  induction l as [|x l IH]; cbn [forallb filter]; intros H; [reflexivity | ].
  apply andb_prop in H. destruct H as [Hx Hl]. rewrite Hx, IH; auto.
Qed.

Lemma runs_each_argv {A} (argv : A -> list string) ev l :
  runs_each argv ev l -> map spawn_argv ev = map argv l.
Proof.
  induction 1 as [|e x ev l [r ->] _ IH]; cbn [map spawn_argv]; [reflexivity | ].
  now rewrite IH.
Qed.

Lemma runs_each_all {A} (argv : A -> list string) (p : event -> bool) ev l :
  (forall x r, p (Spawn (argv x) r) = true) -> runs_each argv ev l -> forallb p ev = true.
Proof.
  intros Hp. induction 1 as [|e x ev l [r ->] _ IH]; cbn [forallb]; [reflexivity | ].
  now rewrite Hp, IH.
Qed.

Lemma wp_for_each_runs {A} (argv : A -> list string) (l : list A) :
  forall w h (Q : list event -> outcome unit -> Prop),
    (forall ev, runs_each argv ev l -> clean ev = true -> Q ev (Ret tt)) ->
    (forall ev n x, runs_each argv ev (firstn n l) -> Q ev (Raise x)) ->
    wp (for_each l (fun x => check_call (argv x) ;; ret tt)) w h Q.
Proof.
  induction l as [|x l IH]; intros w h Q HR HE; cbn [for_each].
  - apply wp_ret, HR; [constructor | reflexivity].
  - apply wp_bind, wp_bind, wp_check_call.
    + intros out. cbv beta iota. apply wp_ret. cbv beta iota.
      apply IH.
      * intros ev Hev Hc. apply HR.
        -- constructor; [eexists; reflexivity | exact Hev].
        -- exact Hc.
      * intros ev n e Hev. apply (HE _ (S n)).
        constructor; [eexists; reflexivity | exact Hev].
    + intros rc out Hrc. apply (HE _ 1%nat).
      constructor; [eexists; reflexivity | ]. cbn [firstn]. constructor.
    + apply (HE _ 1%nat).
      constructor; [eexists; reflexivity | ]. cbn [firstn]. constructor.
Qed.

Lemma before_builds_no_build l :
  forallb before_builds l = true -> filter is_build l = [].
Proof.
  apply filter_none. intros e H. unfold before_builds in H.
  apply andb_prop in H. destruct H as [H _]. apply negb_true_iff in H. exact H.
Qed.

Lemma no_build l :
  forallb (fun e => negb (is_build e)) l = true -> filter is_build l = [].
Proof. apply filter_none. intros e H. apply negb_true_iff in H. exact H. Qed.

Ltac at_getitem :=
  lazymatch goal with
  | |- wp (bind (getitem _ _) _) _ _ _ => idtac
  end.

(** The builds in a trace made of stretches without builds around the
    stretch [ev] of the loop. *)
Ltac builds_of ev Hev :=
  rewrite ?filter_app;
  repeat match goal with
         | H : forallb before_builds ?l = true |- context [filter is_build ?l] =>
             rewrite (before_builds_no_build l H)
         | H : forallb (fun e => negb (is_build e)) ?l = true
           |- context [filter is_build ?l] =>
             rewrite (no_build l H)
         end;
  cbn [filter app]; rewrite ?app_nil_r;
  rewrite ?(filter_all is_build ev Hev).

(** X4: the artifact is built for the configured Spark versions in the
    order given, one [./build/sbt -Dspark.version=<v> clean <target>] for
    each, with the target of the publish mode: the builds of a run are
    those of the first so many versions, and once the local branch has
    been updated they are those of all the versions, each with code 0. *)
Theorem builds_in_order (w : World) (a : Args) (target : string) :
  dict_get PUBLISH_MODES (publish_to a) = Some target ->
  (exists n, map spawn_argv (filter is_build (trace w a))
             = map (build_argv target) (firstn n (spark_version a)))
  /\ (In (Echo (style_underline "Local branch updated")) (trace w a) ->
      map spawn_argv (filter is_build (trace w a))
      = map (build_argv target) (spark_version a)
      /\ clean (filter is_build (trace w a)) = true).
Proof.
  intros Htarget.
  apply (main_wp w a (fun tr o =>
    (exists n, map spawn_argv (filter is_build tr)
               = map (build_argv target) (firstn n (spark_version a)))
    /\ (In (Echo (style_underline "Local branch updated")) tr ->
        map spawn_argv (filter is_build tr) = map (build_argv target) (spark_version a)
        /\ clean (filter is_build tr) = true))).
  unfold main.
  skip_to before_builds ltac:(idtac; at_getitem)
    ltac:(idtac; split;
          [ exists 0%nat; builds_of (@nil event) (@eq_refl bool true); reflexivity
          | intros Hin; absent Hin ]).
  apply wp_bind. unfold getitem. rewrite Htarget. wp_simple.
  apply wp_bind.
  apply (wp_for_each_runs (build_argv target)).
  - intros ev Hev Hclean. cbv beta iota.
    assert (Hb : forallb is_build ev = true).
    { apply (runs_each_all (build_argv target) is_build ev _ (fun _ _ => eq_refl) Hev). }
    wp_rest (fun e => negb (is_build e)).
    builds_of ev Hb. rewrite (runs_each_argv _ _ _ Hev).
    split; [ | intros _; split; [reflexivity | exact Hclean]].
    exists (Datatypes.length (spark_version a)). rewrite firstn_all. reflexivity.
  - intros ev n x Hev.
    assert (Hb : forallb is_build ev = true).
    { apply (runs_each_all (build_argv target) is_build ev _ (fun _ _ => eq_refl) Hev). }
    assert (Hs : forallb (fun e => negb (echoes "Local branch updated" e)) ev = true).
    { apply (runs_each_all (build_argv target) _ ev _ (fun _ _ => eq_refl) Hev). }
    split.
    + builds_of ev Hb. rewrite (runs_each_argv _ _ _ Hev). exists n. reflexivity.
    + intros Hin. absent Hin.
Qed.

Lemma builds_in_order_witness :
  map spawn_argv (filter is_build (trace scenario_world scenario_args))
  = map (build_argv "publishLocal") spark_version_default
  /\ clean (filter is_build (trace scenario_world scenario_args)) = true.
Proof.
  apply (proj2 (builds_in_order scenario_world scenario_args "publishLocal"%string eq_refl)).
  pick.
Defined.

(** ** What an exit status of 0 stands for *)

(** The first step summarised by its stops, all of which give status 1. *)
Lemma wp_bind_fatal {A} (w : World) (h : list event) (m : M A) (f : A -> M unit)
    (Q : list event -> outcome unit -> Prop) :
  ends stops_with_1 m ->
  (forall e1 a, wp (f a) w (h ++ e1) (fun e2 o2 => Q (e1 ++ e2) o2)) ->
  (forall e1 o, exit_status o = 1%Z -> Q e1 o) ->
  wp (bind m f) w h Q.
Proof.
  intros Hm Hk Hf. apply wp_bind. unfold wp. specialize (Hm w h).
  destruct (m w h) as [e1 [a|c|x]]; cbn [fst snd stop_of] in *.
  - apply Hk.
  - apply Hf. cbn in *. apply Z.eqb_eq in Hm. exact Hm.
  - apply Hf. reflexivity.
Qed.

Ltac ends_1 :=
  repeat first
    [ apply ends_bind; [ | intros ? ]
    | apply ends_ret | apply ends_now | apply ends_echo
    | apply ends_sys_exit; reflexivity
    | apply ends_raise; reflexivity
    | apply ends_decode; reflexivity
    | apply ends_check_call; [ intros ? ?; reflexivity | reflexivity ]
    | apply ends_check_output; [ intros ? ?; reflexivity | reflexivity ]
    | apply ends_verify; intros ?; reflexivity
    | apply ends_when
    | apply ends_for_each; intros ?
    | match goal with
      | |- ends _ (if ?c then _ else _) => destruct c
      | |- ends _ (getitem _ _) => unfold getitem; destruct (dict_get _ _)
      end
    | progress cbv beta zeta ].

(** Not status 0. *)
Ltac not_0 :=
  let H := fresh in let K := fresh in
  first [ intros ? ? H K; rewrite H in K; discriminate K
        | intros K; discriminate K ].

Ltac skip_fatal :=
  lazymatch goal with
  | |- wp (bind _ _) _ _ _ =>
      apply wp_bind_fatal; [ solve [ends_1] | intros ? ? | not_0 ]
  end; cbv beta iota zeta.

Ltac skip_fatal_to stop := repeat (tryif stop then fail else skip_fatal).

Ltac run_call :=
  apply wp_bind, wp_check_call; [intros ? | intros ? ? ? | ]; cbv beta iota zeta;
  [ | not_0 | not_0 ].

Lemma runs_each_succeeded {A} (argv : A -> list string) ev l x :
  runs_each argv ev l -> clean ev = true -> In x l -> succeeded (argv x) ev.
Proof.
  induction 1 as [|e y ev l [r ->] _ IH]; cbn [clean forallb In]; intros Hc Hin; [destruct Hin | ].
  unfold clean in *. apply andb_prop in Hc. destruct Hc as [He Hc].
  destruct Hin as [->|Hin].
  - destruct r as [[rc out]|]; [ | discriminate He].
    cbn in He. apply negb_true_iff, negb_false_iff, Z.eqb_eq in He. subst rc.
    exists out. left. reflexivity.
  - destruct (IH Hc Hin) as [out Hout]. exists out. right. exact Hout.
Qed.

(** Find a known member of a stretch in the trace. *)
Ltac find_hyp H :=
  first [ exact H
        | apply in_cons; find_hyp H
        | apply in_or_app; first [ left; find_hyp H | right; find_hyp H ] ].

(** X5: a run that exits with status 0 has made the release: it created
    the working branch, ran the release command with the normalised next
    version, checked out the release tag, built the artifact for every
    configured Spark version, went back to the branch it started from,
    fast-forwarded it to the working branch and deleted the working
    branch, each of these commands ending with code 0. *)
Theorem status_0_means_released (w : World) (a : Args) :
  status w a = 0%Z ->
  exists out target,
    In (Spawn git_rev_parse (Some (0%Z, out))) (trace w a)
    /\ dict_get PUBLISH_MODES (publish_to a) = Some target
    /\ succeeded ["git"; "checkout"; "-b"; working_branch w a]%string (trace w a)
    /\ succeeded ["./build/sbt"; release_command a]%string (trace w a)
    /\ succeeded ["git"; "checkout"; release_tag a]%string (trace w a)
    /\ (forall v, In v (spark_version a) -> succeeded (build_argv target v) (trace w a))
    /\ succeeded ["git"; "checkout"; Py.strip out]%string (trace w a)
    /\ succeeded ["git"; "merge"; "--ff"; working_branch w a]%string (trace w a)
    /\ succeeded ["git"; "branch"; "-d"; working_branch w a]%string (trace w a).
Proof.
  unfold status.
  apply (main_wp w a (fun tr o =>
    exit_status o = 0%Z ->
    exists out target,
      In (Spawn git_rev_parse (Some (0%Z, out))) tr
      /\ dict_get PUBLISH_MODES (publish_to a) = Some target
      /\ succeeded ["git"; "checkout"; "-b"; working_branch w a]%string tr
      /\ succeeded ["./build/sbt"; release_command a]%string tr
      /\ succeeded ["git"; "checkout"; release_tag a]%string tr
      /\ (forall v, In v (spark_version a) -> succeeded (build_argv target v) tr)
      /\ succeeded ["git"; "checkout"; Py.strip out]%string tr
      /\ succeeded ["git"; "merge"; "--ff"; working_branch w a]%string tr
      /\ succeeded ["git"; "branch"; "-d"; working_branch w a]%string tr)).
  unfold main. wp_head.
  skip_fatal_to ltac:(idtac; at_output ["git"; "rev-parse"; "--abbrev-ref"; "HEAD"]%string).
  apply wp_bind, wp_check_output; [intros out0 | intros ? ? ? | ]; cbv beta iota zeta;
    [ | not_0 | not_0 ].
  skip_fatal_to ltac:(idtac; at_any_call).
  run_call. skip_fatal. run_call. skip_fatal. run_call.
  apply wp_bind. unfold getitem.
  destruct (dict_get PUBLISH_MODES (publish_to a)) as [target|] eqn:Htarget;
    wp_simple; [ | not_0 ].
  apply wp_bind. apply (wp_for_each_runs (build_argv target)); [ | intros ? ? ? ?; not_0 ].
  intros ev Hev Hclean. cbv beta iota.
  skip_fatal. run_call. run_call. run_call.
  wp_forget; intros _; exists out0, target; unfold succeeded, working_branch, release_command,
    release_tag.
  all: repeat match goal with
              | |- _ /\ _ => split
              | |- Some _ = Some _ => reflexivity
              | |- In _ _ => find_in
              | |- exists _, In _ _ => eexists; find_in
              | |- forall v, _ -> _ =>
                  let v := fresh "v" in let Hv := fresh "Hv" in let o := fresh "o" in
                  let Ho := fresh "Ho" in
                  intros v Hv; destruct (runs_each_succeeded _ _ _ v Hev Hclean Hv) as [o Ho];
                  exists o; find_hyp Ho
              end.
Qed.

Lemma status_0_means_released_witness :
  exists out target,
    In (Spawn git_rev_parse (Some (0%Z, out))) (trace scenario_world scenario_args)
    /\ dict_get PUBLISH_MODES (publish_to scenario_args) = Some target
    /\ succeeded ["git"; "checkout"; "-b"; working_branch scenario_world scenario_args]%string
                 (trace scenario_world scenario_args)
    /\ succeeded ["./build/sbt"; release_command scenario_args]%string
                 (trace scenario_world scenario_args)
    /\ succeeded ["git"; "checkout"; release_tag scenario_args]%string
                 (trace scenario_world scenario_args)
    /\ (forall v, In v (spark_version scenario_args) ->
         succeeded (build_argv target v) (trace scenario_world scenario_args))
    /\ succeeded ["git"; "checkout"; Py.strip out]%string (trace scenario_world scenario_args)
    /\ succeeded ["git"; "merge"; "--ff"; working_branch scenario_world scenario_args]%string
                 (trace scenario_world scenario_args)
    /\ succeeded ["git"; "branch"; "-d"; working_branch scenario_world scenario_args]%string
                 (trace scenario_world scenario_args).
Proof.
  apply (status_0_means_released scenario_world scenario_args).
  vm_compute. reflexivity.
Defined.

(** ** The order of the steps *)

Lemma argv_eqb_refl (argv : list string) : argv_eqb argv argv = true.
Proof.
  induction argv as [|x argv IH]; cbn [argv_eqb]; [reflexivity | ].
  rewrite String.eqb_refl. exact IH.
Qed.

Lemma spawns_self (argv : list string) r : spawns argv (Spawn argv r) = true.
Proof. apply argv_eqb_refl. Qed.

(** As [absent], for a summary that excludes the very command of [H]. *)
Ltac excluded_self H :=
  let K := fresh "K" in
  in_summary H K; cbv beta in K; rewrite spawns_self in K; discriminate K.

Ltac absent_self H :=
  exfalso; split_in H; first [ excluded_self H | excluded H | discriminate H ].

Ltac at_merge :=
  lazymatch goal with
  | |- wp (bind (check_call ("git" :: "merge" :: _)%string) _) _ _ _ => idtac
  end.

(** X6: the working branch is deleted only after it has been merged:
    whenever [git branch -d] is run on the working branch, the
    fast-forward merge of the working branch has ended with code 0. *)
Theorem deleted_only_when_merged (w : World) (a : Args) (r : option (Z * string)) :
  In (Spawn ["git"; "branch"; "-d"; working_branch w a]%string r) (trace w a) ->
  succeeded ["git"; "merge"; "--ff"; working_branch w a]%string (trace w a).
Proof.
  apply (main_wp w a (fun tr o =>
    In (Spawn ["git"; "branch"; "-d"; working_branch w a]%string r) tr ->
    succeeded ["git"; "merge"; "--ff"; working_branch w a]%string tr)).
  unfold main. wp_head.
  skip_to (fun e => negb (spawns ["git"; "branch"; "-d"; working_branch w a]%string e))
          ltac:(idtac; at_merge) ltac:(idtac; intros Hin; absent_self Hin).
  apply wp_bind, wp_check_call; [intros out | intros rc out Hrc | ]; cbv beta iota zeta.
  - wp_forget; intros _; unfold succeeded, working_branch; eexists; find_in.
  - intros Hin. absent_self Hin.
  - intros Hin. absent_self Hin.
Qed.

Lemma deleted_only_when_merged_witness :
  succeeded ["git"; "merge"; "--ff"; working_branch scenario_world scenario_args]%string
            (trace scenario_world scenario_args).
Proof.
  apply (deleted_only_when_merged scenario_world scenario_args (Some (0%Z, ""%string))).
  pick.
Defined.

(** ** Pushes and consent *)

(** The event [e] of [Hin], which satisfies [Hp], is in no stretch that
    excludes such events and is none of the listed events. *)
Ltac nowhere Hin Hp :=
  exfalso; split_in Hin;
  first [ let K := fresh "K" in in_summary Hin K; cbv beta in K; rewrite Hp in K; discriminate K
        | subst; lazy in Hp; discriminate Hp ].

Section Guarded.
Context (w : World) (a : Args) (current_branch : string).

Lemma guarded_answer (q : string) (b : bool) (l : list event) (s : option string) :
  guarded w a current_branch (if b then Some q else None) l ->
  guarded w a current_branch s (Confirm q (Some b) :: l).
Proof. exact (fun H => H). Qed.

Lemma guarded_other (e : event) (l : list event) (s : option string) :
  is_answer e = false ->
  (pushes e = true -> exists q, s = Some q /\ asked_for w a current_branch q e) ->
  guarded w a current_branch s l ->
  guarded w a current_branch s (e :: l).
Proof.
  intros He Hp Hl. destruct e as [x|q [b|]|argv r]; cbn [guarded];
    try discriminate He; split; assumption.
Qed.

Lemma guarded_app_quiet (l1 l2 : list event) :
  forallb (fun e => negb (pushes e)) l1 = true ->
  (forall s, guarded w a current_branch s l2) ->
  forall s, guarded w a current_branch s (l1 ++ l2).
Proof.
  intros H1 H2. induction l1 as [|e l1 IH]; intros s; cbn [app]; [apply H2 | ].
  cbn [forallb] in H1. apply andb_prop in H1. destruct H1 as [He H1].
  apply negb_true_iff in He.
  destruct e as [x|q [b|]|argv r]; cbn [guarded].
  - split; [intros K; rewrite K in He; discriminate He | apply IH, H1].
  - apply IH, H1.
  - split; [intros K; rewrite K in He; discriminate He | apply IH, H1].
  - split; [intros K; rewrite K in He; discriminate He | apply IH, H1].
Qed.

Lemma guarded_quiet (l : list event) :
  forallb (fun e => negb (pushes e)) l = true ->
  forall s, guarded w a current_branch s l.
Proof.
  intros H s. rewrite <- (app_nil_r l). apply guarded_app_quiet; [exact H | ].
  intros s'. exact I.
Qed.

(** A push in a guarded stretch comes after a yes to its prompt, with no
    other answer in between. *)
Lemma guarded_split (pre : list event) (e : event) (post : list event) :
  pushes e = true ->
  forall s,
    guarded w a current_branch s (pre ++ e :: post) ->
    (exists before q between,
        pre = before ++ Confirm q (Some true) :: between
        /\ forallb (fun x => negb (is_answer x)) between = true
        /\ asked_for w a current_branch q e)
    \/ (forallb (fun x => negb (is_answer x)) pre = true
        /\ exists q, s = Some q /\ asked_for w a current_branch q e).
Proof.
  intros Hp. induction pre as [|x pre IH]; intros s H; cbn [app] in H.
  - right. split; [reflexivity | ].
    destruct e as [y|q [b|]|argv r]; cbn [guarded] in H; try discriminate Hp.
    apply (proj1 H Hp).
  - assert (Hcons : forall s',
              guarded w a current_branch s' (pre ++ e :: post) ->
              is_answer x = false ->
              s' = s ->
              (exists before q between,
                  x :: pre = before ++ Confirm q (Some true) :: between
                  /\ forallb (fun x => negb (is_answer x)) between = true
                  /\ asked_for w a current_branch q e)
              \/ (forallb (fun x => negb (is_answer x)) (x :: pre) = true
                  /\ exists q, s = Some q /\ asked_for w a current_branch q e)).
    { intros s' H' Hx ->.
      destruct (IH s H') as [[before [q [between [Hpre [Hb Ha]]]]] | [Hpre Hq]].
      - left. exists (x :: before), q, between. rewrite Hpre. auto.
      - right. split; [ | exact Hq]. cbn [forallb]. rewrite Hx, Hpre. reflexivity. }
    destruct x as [y|q [b|]|argv r]; cbn [guarded] in H.
    + apply (Hcons s (proj2 H) eq_refl eq_refl).
    + destruct (IH _ H) as [[before [q' [between [Hpre [Hb Ha]]]]] | [Hpre [q' [Hq Ha]]]].
      * left. exists (Confirm q (Some b) :: before), q', between. rewrite Hpre. auto.
      * left. destruct b; [ | discriminate Hq]. injection Hq as <-.
        exists [], q, pre. auto.
    + apply (Hcons s (proj2 H) eq_refl eq_refl).
    + apply (Hcons s (proj2 H) eq_refl eq_refl).
Qed.
End Guarded.

(** All the stretches of the trace pass the summary. *)
Ltac no_push :=
  rewrite ?forallb_app;
  repeat match goal with
         | H : forallb _ ?l = true |- context [forallb _ ?l] => rewrite H
         end;
  reflexivity.

(** The listed event is no push, or it is the push that the prompt
    answered last asks for; which one is read off its command line. *)
Ltac push_asked :=
  let Hp := fresh "Hp" in
  intros Hp;
  unfold asked_for, push_prompt, docs_push_prompt, docs_branch, release_tag;
  lazymatch type of Hp with
  | pushes (Spawn ["git"; "push"; _; Py.strip _]%string _) = true =>
      eexists; split; [ reflexivity | ];
      left; split; [ reflexivity | eexists; left; reflexivity ]
  | pushes (Spawn ["git"; "push"; _; Py.percent RELEASE_TAG _]%string _) = true =>
      eexists; split; [ reflexivity | ];
      left; split; [ reflexivity | eexists; right; reflexivity ]
  | pushes (Spawn ["git"; "push"; _; Py.percent WORKING_DOCS_BRANCH _]%string _) = true =>
      eexists; split; [ reflexivity | ];
      right; split; [ reflexivity | eexists; left; reflexivity ]
  | pushes (Spawn ["git"; "push"; "-f"; _; _]%string _) = true =>
      eexists; split; [ reflexivity | ];
      right; split; [ reflexivity | eexists; right; reflexivity ]
  | _ => lazy in Hp; discriminate Hp
  end.

(** The trace is guarded: stretch by stretch and event by event. *)
Ltac consent_tac :=
  cbn [app];
  repeat lazymatch goal with
         | |- guarded _ _ _ _ (?l ++ _) =>
             apply guarded_app_quiet;
             [ match goal with H : forallb _ l = true |- _ => exact H end | intros ? ]
         | |- guarded _ _ _ _ [] => exact I
         | |- guarded _ _ _ _ (Confirm _ (Some _) :: _) => apply guarded_answer; cbv iota
         | |- guarded _ _ _ _ (_ :: _) => apply guarded_other; [ reflexivity | push_asked | ]
         | |- guarded _ _ _ _ ?l =>
             apply guarded_quiet; match goal with H : forallb _ l = true |- _ => exact H end
         end.

(** Run the computation, summarising the steps that push nothing and
    branching at the prompts of [main] and at the pushes. *)
Ltac consent_go :=
  repeat first
    [ lazymatch goal with
      | |- wp (bind (verify _ _) _) _ _ _ =>
          apply wp_bind; unfold verify at 1; cbn [negb]; cbv iota;
          apply wp_confirm; [intros [|] | ]; cbv beta iota
      end
    | wp_skip (fun e => negb (pushes e))
    | wp_simple
    | lazymatch goal with
      | |- wp (bind _ _) _ _ _ => apply wp_bind
      | |- wp (check_call _) _ _ _ => apply wp_check_call; [intros ? | intros ? ? ? | ]
      end; cbv beta iota zeta ].

Lemma guarded_run w a :
  no_prompt a = false ->
  forallb (fun e => negb (pushes e)) (trace w a) = true
  \/ exists out,
       In (Spawn git_rev_parse (Some (0%Z, out))) (trace w a)
       /\ forall s, guarded w a (Py.strip out) s (trace w a).
Proof.
  intros Hnp.
  apply (main_wp w a (fun tr o =>
    forallb (fun e => negb (pushes e)) tr = true
    \/ exists out,
         In (Spawn git_rev_parse (Some (0%Z, out))) tr
         /\ forall s, guarded w a (Py.strip out) s tr)).
  unfold main. rewrite Hnp. wp_head.
  skip_to (fun e => negb (pushes e))
          ltac:(idtac; at_output ["git"; "rev-parse"; "--abbrev-ref"; "HEAD"]%string)
          ltac:(idtac; left; no_push).
  apply wp_bind, wp_check_output; [intros out0 | intros rc0 out0 Hrc | ]; cbv beta iota zeta;
    [ | left; no_push | left; no_push ].
  consent_go.
  all: lazymatch goal with
       | |- context [Spawn ("git" :: "push" :: _)%string _] =>
           right; exists out0; split;
           [ unfold git_rev_parse; find_in | intros s; consent_tac ]
       | |- _ => left; no_push
       end.
Qed.
(** X7: with prompts on, nothing is pushed without the operator's
    consent to that very push: in an interactive run every [git push]
    comes after a yes to the prompt that asks for it, with no other
    answer given in between: the prompt of line 113 for the push of the
    current branch and of the release tag, the prompt of line 130 for
    the push of the docs branch and its force-push onto gh-pages. *)
Theorem pushes_need_consent (w : World) (a : Args)
    (pre : list event) (e : event) (post : list event) :
  no_prompt a = false ->
  trace w a = pre ++ e :: post ->
  pushes e = true ->
  exists out before q between,
    In (Spawn git_rev_parse (Some (0%Z, out))) (trace w a)
    /\ pre = before ++ Confirm q (Some true) :: between
    /\ forallb (fun x => negb (is_answer x)) between = true
    /\ asked_for w a (Py.strip out) q e.
Proof.
  intros Hnp Htr Hp.
  destruct (guarded_run w a Hnp) as [Hq | [out [Hin Hg]]].
  - exfalso. rewrite Htr, forallb_app in Hq. cbn [forallb] in Hq.
    rewrite Hp in Hq. cbn [negb andb] in Hq. rewrite andb_false_r in Hq. discriminate Hq.
  - specialize (Hg None). rewrite Htr in Hg.
    destruct (guarded_split w a (Py.strip out) pre e post Hp None Hg)
      as [[before [q [between [Hpre [Hb Ha]]]]] | [_ [q [Hq _]]]]; [ | discriminate Hq].
    exists out, before, q, between. auto.
Qed.

Lemma pushes_need_consent_witness :
  exists out before q between,
    In (Spawn git_rev_parse (Some (0%Z, out)))
       (trace (clean_master (accepts_all_but "")) interactive_args)
    /\ firstn 30 (trace (clean_master (accepts_all_but "")) interactive_args)
       = before ++ Confirm q (Some true) :: between
    /\ forallb (fun x => negb (is_answer x)) between = true
    /\ asked_for (clean_master (accepts_all_but "")) interactive_args (Py.strip out) q
         (Spawn ["git"; "push"; "-f"; DATABRICKS_REMOTE;
                 "zWORKING_BRANCH_DOCS_1.2.3_@2023-04-01T12-00-00:gh-pages"]%string
                (Some (0%Z, ""%string))).
Proof.
  apply (pushes_need_consent (clean_master (accepts_all_but "")) interactive_args
           (firstn 30 (trace (clean_master (accepts_all_but "")) interactive_args))
           (Spawn ["git"; "push"; "-f"; DATABRICKS_REMOTE;
                   "zWORKING_BRANCH_DOCS_1.2.3_@2023-04-01T12-00-00:gh-pages"]%string
                  (Some (0%Z, ""%string)))
           (skipn 31 (trace (clean_master (accepts_all_but "")) interactive_args))).
  - reflexivity.
  - vm_compute. reflexivity.
  - reflexivity.
Defined.

(** ** The docs step *)

(** All the stretches of the trace pass the summary. *)
Ltac all_pass :=
  rewrite ?forallb_app;
  repeat match goal with
         | H : forallb _ ?l = true |- context [forallb _ ?l] => rewrite H
         end;
  reflexivity.

(** X8: with publish-docs off, nothing of the docs step happens (no
    prompt for it, no docs branch, no build of the docs, no commit, no
    force-push), and a run that gets to the docs step ends there with
    [sys.exit(0)]. *)
Theorem no_docs_when_off (w : World) (a : Args) :
  publish_docs a = false ->
  forallb (fun e => negb (docs_event e)) (trace w a) = true
  /\ (In (Echo (style_underline "Building release docs")) (trace w a) ->
      snd (run w a) = Exit 0%Z).
Proof.
  intros Hdocs. split.
  - apply (main_wp w a (fun tr o => forallb (fun e => negb (docs_event e)) tr = true)).
    unfold main. rewrite Hdocs.
    skip_to (fun e => negb (docs_event e))
            ltac:(idtac; at_echo "Building release docs"%string) ltac:(idtac; all_pass).
    wp_go. all_pass.
  - apply (main_wp w a (fun tr o =>
      In (Echo (style_underline "Building release docs")) tr -> o = Exit 0%Z)).
    unfold main. rewrite Hdocs.
    skip_to (fun e => negb (echoes "Building release docs" e))
            ltac:(idtac; at_echo "Building release docs"%string)
            ltac:(idtac; intros Hin; absent Hin).
    wp_go. intros _. reflexivity.
Qed.

Lemma no_docs_when_off_witness :
  forallb (fun e => negb (docs_event e))
          (trace scenario_world
             {| release_version := "1.2.3"; next_version := "1.3.0"; publish_to := "m2";
                no_prompt := true; git_remote := DATABRICKS_REMOTE;
                publish_docs := false; spark_version := spark_version_default |}) = true
  /\ snd (run scenario_world
             {| release_version := "1.2.3"; next_version := "1.3.0"; publish_to := "m2";
                no_prompt := true; git_remote := DATABRICKS_REMOTE;
                publish_docs := false; spark_version := spark_version_default |}) = Exit 0%Z.
Proof.
  destruct (no_docs_when_off scenario_world
             {| release_version := "1.2.3"; next_version := "1.3.0"; publish_to := "m2";
                no_prompt := true; git_remote := DATABRICKS_REMOTE;
                publish_docs := false; spark_version := spark_version_default |} eq_refl)
    as [H1 H2].
  split; [exact H1 | apply H2; pick].
Defined.

(** Find the run of a command in a trace by its command line as written. *)
Ltac find_spawn :=
  lazymatch goal with
  | |- In (Spawn ?argv _) (?l ++ ?r) =>
      lazymatch l with
      | context [Spawn argv _] => apply in_or_app; left; find_spawn
      | _ => apply in_or_app; right; find_spawn
      end
  | |- In (Spawn ?argv _) (?x :: ?r) =>
      lazymatch x with
      | Spawn argv _ => apply in_eq
      | _ => apply in_cons; find_spawn
      end
  end.

Ltac at_build_docs :=
  lazymatch goal with
  | |- wp (bind (check_call ["./dev/build-docs.sh"%string]) _) _ _ _ => idtac
  end.

(** A command of the docs step: on failure the force-push is not reached. *)
Ltac docs_call :=
  apply wp_bind, wp_check_call; [intros ? | intros ? ? ? | ]; cbv beta iota zeta;
  [ | intros Hin Hp; nowhere Hin Hp | intros Hin Hp; nowhere Hin Hp ].

(** X9: the docs branch is force-pushed onto gh-pages only after the
    docs have been built, staged and committed and the docs branch itself
    has been pushed, each with code 0. *)
Theorem force_push_comes_last (w : World) (a : Args) (e : event) :
  In e (trace w a) ->
  is_force_push e = true ->
  succeeded ["./dev/build-docs.sh"]%string (trace w a)
  /\ succeeded ["git"; "add"; "-f"; "docs/_site"]%string (trace w a)
  /\ succeeded ["git"; "commit"; "-m";
                Py.percent "Build docs for release %s." [release_version a]]%string (trace w a)
  /\ succeeded ["git"; "push"; git_remote a; docs_branch w a]%string (trace w a).
Proof.
  apply (main_wp w a (fun tr o =>
    In e tr -> is_force_push e = true ->
    succeeded ["./dev/build-docs.sh"]%string tr
    /\ succeeded ["git"; "add"; "-f"; "docs/_site"]%string tr
    /\ succeeded ["git"; "commit"; "-m";
                  Py.percent "Build docs for release %s." [release_version a]]%string tr
    /\ succeeded ["git"; "push"; git_remote a; docs_branch w a]%string tr)).
  unfold main. wp_head.
  skip_to (fun e => negb (is_force_push e)) ltac:(idtac; at_build_docs)
          ltac:(idtac; intros Hin Hp; nowhere Hin Hp).
  docs_call. docs_call. docs_call.
  wp_skip (fun e => negb (is_force_push e)); [ | intros Hin Hp; nowhere Hin Hp ].
  apply wp_bind. unfold when at 1.
  lazymatch goal with |- wp (if ?b then _ else _) _ _ _ => destruct b end.
  - docs_call.
    wp_forget; intros _ _; unfold succeeded, docs_branch;
      (split; [ | split; [ | split]]); eexists; find_spawn.
  - wp_simple. wp_rest (fun e => negb (is_force_push e)). intros Hin Hp. nowhere Hin Hp.
Qed.

Lemma force_push_comes_last_witness :
  succeeded ["./dev/build-docs.sh"]%string (trace scenario_world scenario_args)
  /\ succeeded ["git"; "add"; "-f"; "docs/_site"]%string (trace scenario_world scenario_args)
  /\ succeeded ["git"; "commit"; "-m";
                Py.percent "Build docs for release %s." [release_version scenario_args]]%string
               (trace scenario_world scenario_args)
  /\ succeeded ["git"; "push"; git_remote scenario_args;
                docs_branch scenario_world scenario_args]%string
               (trace scenario_world scenario_args).
Proof.
  apply (force_push_comes_last scenario_world scenario_args
           (Spawn ["git"; "push"; "-f"; DATABRICKS_REMOTE;
                   "zWORKING_BRANCH_DOCS_1.2.3_@2023-04-01T12-00-00:gh-pages"]%string
                  (Some (0%Z, ""%string)))).
  - pick.
  - reflexivity.
Defined.

(** ** The release command *)

Lemma percent_release_command rv nv :
  Py.percent "release release-version %s next-version %s" [rv; nv]
  = ("release release-version " ++ rv ++ " next-version " ++ nv)%string.
Proof. cbn. now rewrite append_nil_r. Qed.

Lemma normalized_cases (s : string) :
  normalize_next_version s = s \/ normalize_next_version s = (s ++ "-SNAPSHOT")%string.
Proof. unfold normalize_next_version. destruct (Py.endswith s "SNAPSHOT"); cbn; auto. Qed.

Ltac at_sbt_command :=
  lazymatch goal with
  | |- wp (bind (check_call ["./build/sbt"%string; _]) _) _ _ _ => idtac
  end.

(** The event [e] of [Hin], a one-argument run of sbt, is the listed
    release command: it is in no other stretch of the trace. *)
Ltac the_sbt_command Hin Hp :=
  split_in Hin;
  first [ exfalso; let K := fresh "K" in
          in_summary Hin K; cbv beta in K; rewrite Hp in K; discriminate K
        | lazymatch type of Hin with
          | Spawn ["./build/sbt"%string; _] _ = _ =>
              subst; eexists; unfold release_command; reflexivity
          end
        | exfalso; subst; lazy in Hp; discriminate Hp ].

(** The only one-argument run of sbt is the release command of line 98. *)
Lemma sbt_command_run w a e :
  In e (trace w a) -> is_sbt_command e = true ->
  exists r, e = Spawn ["./build/sbt"; release_command a]%string r.
Proof.
  apply (main_wp w a (fun tr o =>
    In e tr -> is_sbt_command e = true ->
    exists r, e = Spawn ["./build/sbt"; release_command a]%string r)).
  unfold main. wp_head.
  skip_to (fun e => negb (is_sbt_command e)) ltac:(idtac; at_sbt_command)
          ltac:(idtac; intros Hin Hp; nowhere Hin Hp).
  apply wp_bind, wp_check_call; [intros out | intros rc out Hrc | ]; cbv beta iota zeta.
  - wp_rest (fun e => negb (is_sbt_command e)). intros Hin Hp. the_sbt_command Hin Hp.
  - intros Hin Hp. the_sbt_command Hin Hp.
  - intros Hin Hp. the_sbt_command Hin Hp.
Qed.

(** X10: the release command always names a development version: every
    one-argument run of sbt is [release release-version <release>
    next-version <next>] where <next> ends in SNAPSHOT and is the next
    version given, as it is or with [-SNAPSHOT] appended. *)
Theorem release_names_snapshot (w : World) (a : Args) (e : event) :
  In e (trace w a) ->
  is_sbt_command e = true ->
  exists r nv,
    e = Spawn ["./build/sbt";
               "release release-version " ++ release_version a ++ " next-version " ++ nv]%string r
    /\ ends_in nv "SNAPSHOT"
    /\ (nv = next_version a \/ nv = (next_version a ++ "-SNAPSHOT")%string).
Proof.
  intros Hin Hp. destruct (sbt_command_run w a e Hin Hp) as [r ->].
  exists r, (normalize_next_version (next_version a)).
  split; [ | split].
  - unfold release_command. rewrite percent_release_command. reflexivity.
  - apply endswith_spec, normalized_ends_in_snapshot.
  - apply normalized_cases.
Qed.

Lemma release_names_snapshot_witness :
  exists r nv,
    Spawn ["./build/sbt"; "release release-version 1.2.3 next-version 1.3.0-SNAPSHOT"]%string
          (Some (0%Z, ""%string))
    = Spawn ["./build/sbt";
             "release release-version " ++ release_version scenario_args
               ++ " next-version " ++ nv]%string r
    /\ ends_in nv "SNAPSHOT"
    /\ (nv = next_version scenario_args
        \/ nv = (next_version scenario_args ++ "-SNAPSHOT")%string).
Proof.
  apply (release_names_snapshot scenario_world scenario_args).
  - pick.
  - reflexivity.
Defined.

(** ** The checks come first *)

Lemma no_conflict_out (x : string) (l : list string) :
  Nat.eqb (Datatypes.length (filter (fun t => list_in t l) [x])) 0 = true ->
  list_in x l = false.
Proof. cbn [filter]. destruct (list_in x l); [discriminate | reflexivity]. Qed.

(** Run the computation along all its paths until [stop] holds. *)
Ltac explore_to stop :=
  repeat (tryif stop then fail else
    first
      [ wp_simple
      | lazymatch goal with
        | |- wp (bind _ _) _ _ _ => apply wp_bind
        | |- wp (click_confirm _) _ _ _ => apply wp_confirm; [intros [|] | ]
        | |- wp (check_output _) _ _ _ =>
            apply wp_check_output; [intros ? | intros ? ? ? | ]
        | |- wp (match ?x with _ => _ end) _ _ _ => destruct x eqn:?
        end; cbv beta iota zeta ]).

(** What the tests of the script have established, in plain terms. *)
Ltac tested :=
  repeat match goal with
         | H : negb _ = false |- _ => apply negb_false_iff in H
         | H : negb _ = true |- _ => apply negb_true_iff in H
         | H : (?x =? "")%string = true |- _ => apply String.eqb_eq in H; subst x
         end.

Lemma cut_here {X} (a pre post t : list X) : t = pre ++ post -> a ++ t = (a ++ pre) ++ post.
Proof. intros ->. apply app_assoc. Qed.

Lemma cut_end {X} (t : list X) : t = [] ++ t.
Proof. reflexivity. Qed.

(** Cut a trace before its last stretch. *)
Ltac cut_last :=
  lazymatch goal with
  | |- ?a ++ ?t = _ => apply cut_here; cut_last
  | |- _ => apply cut_end
  end.

(** With no-prompt set there is nobody to ask. *)
Ltac nobody_to_ask H :=
  match goal with
  | K : no_prompt _ = true |- _ => rewrite K in H; discriminate H
  end.

(** X11: the checks come first: a command other than the three queries
    of the repository is run only after a stretch of the run in which no
    such command was run and all the checks have passed: known publish
    target, release confirmed, current branch named (and, off master,
    going on confirmed), no uncommitted changes, release tag not yet
    there. *)
Theorem checks_come_first (w : World) (a : Args) (e : event) :
  In e (trace w a) ->
  acts e = true ->
  exists pre post,
    trace w a = pre ++ post
    /\ forallb (fun e => negb (acts e)) pre = true
    /\ checks_passed a pre.
Proof.
  apply (main_wp w a (fun tr o =>
    In e tr -> acts e = true ->
    exists pre post,
      tr = pre ++ post
      /\ forallb (fun e => negb (acts e)) pre = true
      /\ checks_passed a pre)).
  unfold main.
  explore_to ltac:(idtac; at_any_call).
  all: try (intros Hin Hp; nowhere Hin Hp).
  all: wp_forget; intros _ _; tested.
  all: eexists; eexists; split; [ cut_last | ].
  all: split; [ reflexivity | ].
  all: unfold checks_passed.
  all: split; [ match goal with H : dict_in _ _ = true |- _ => exact H end | ].
  all: split;
    [ intros Hnp; first [ nobody_to_ask Hnp | unfold release_prompt; find_in ] | ].
  all: split;
    [ eexists; split; [ find_in | split ];
      [ apply String.eqb_neq;
        match goal with H : (Py.strip _ =? "HEAD")%string = false |- _ => exact H end
      | intros Hm Hnp;
        first [ nobody_to_ask Hnp
              | exfalso; apply Hm, String.eqb_eq;
                match goal with
                | H : (Py.strip _ =? "master")%string = true |- _ => exact H
                end
              | unfold master_prompt; find_in ] ]
    | ].
  all: split; [ unfold git_diff; find_in | ].
  all: eexists; eexists; split; [ find_in | split ];
    [ unfold known_tags;
      match goal with H : Py.decode _ = Some _ |- _ => rewrite H end; reflexivity
    | unfold release_tag; apply no_conflict_out;
      match goal with H : Nat.eqb _ 0 = true |- _ => exact H end ].
Qed.

Lemma checks_come_first_witness :
  exists pre post,
    trace scenario_world scenario_args = pre ++ post
    /\ forallb (fun e => negb (acts e)) pre = true
    /\ checks_passed scenario_args pre.
Proof.
  apply (checks_come_first scenario_world scenario_args
           (Spawn ["git"; "checkout"; "v1.2.3"]%string (Some (0%Z, ""%string)))).
  - pick.
  - reflexivity.
Defined.

(** ** How a run ends well *)

(** The first step summarised by nothing at all: if it does not return,
    the run does not return. *)
Lemma wp_bind_through {A} (w : World) (h : list event) (m : M A) (f : A -> M unit)
    (Q : list event -> outcome unit -> Prop) :
  (forall e1 a, wp (f a) w (h ++ e1) (fun e2 o2 => Q (e1 ++ e2) o2)) ->
  (forall e1 o, o <> Ret tt -> Q e1 o) ->
  wp (bind m f) w h Q.
Proof.
  intros Hk Hf. apply wp_bind. unfold wp.
  destruct (m w h) as [e1 [a|c|x]]; cbn [fst snd].
  - apply Hk.
  - apply Hf. discriminate.
  - apply Hf. discriminate.
Qed.

(** A computation summarised by the ways it can stop. *)
Lemma wp_ends {A} (q : stop -> bool) (w : World) (h : list event) (m : M A)
    (Q : list event -> outcome A -> Prop) :
  ends q m ->
  (forall ev o, match stop_of o with Some s => q s = true | None => True end -> Q ev o) ->
  wp m w h Q.
Proof. intros Hm HQ. apply HQ. apply Hm. Qed.

Ltac skip_through :=
  lazymatch goal with
  | |- wp (bind _ _) _ _ _ =>
      apply wp_bind_through;
      [ intros ? ?
      | let H := fresh in let K := fresh in intros ? ? H K; exact (False_rect _ (H K)) ]
  end; cbv beta iota zeta.

Ltac skip_through_to stop := repeat (tryif stop then fail else skip_through).

(** Run the computation along all its paths. *)
Ltac explore_all :=
  repeat first
    [ wp_simple
    | lazymatch goal with
      | |- wp (bind _ _) _ _ _ => apply wp_bind
      | |- wp (click_confirm _) _ _ _ => apply wp_confirm; [intros [|] | ]
      | |- wp (check_call _) _ _ _ => apply wp_check_call; [intros ? | intros ? ? ? | ]
      | |- wp (match ?x with _ => _ end) _ _ _ => destruct x eqn:?
      end; cbv beta iota zeta ].

(** X12: a run that returns from [main] (rather than leaving through
    [sys.exit]) has gone through the whole docs step: publish-docs was
    on, the docs branch was created from the release tag, the docs were
    built, staged and committed, and the docs branch was deleted, each
    with code 0; and with no-prompt set the docs branch was pushed and
    force-pushed onto gh-pages. *)
Theorem returns_after_docs (w : World) (a : Args) :
  snd (run w a) = Ret tt ->
  publish_docs a = true
  /\ succeeded ["git"; "checkout"; "-b"; docs_branch w a; release_tag a]%string (trace w a)
  /\ succeeded ["./dev/build-docs.sh"]%string (trace w a)
  /\ succeeded ["git"; "add"; "-f"; "docs/_site"]%string (trace w a)
  /\ succeeded ["git"; "commit"; "-m";
                Py.percent "Build docs for release %s." [release_version a]]%string (trace w a)
  /\ succeeded ["git"; "branch"; "-D"; docs_branch w a]%string (trace w a)
  /\ (no_prompt a = true ->
      succeeded ["git"; "push"; git_remote a; docs_branch w a]%string (trace w a)
      /\ succeeded ["git"; "push"; "-f"; git_remote a;
                    (docs_branch w a ++ ":gh-pages")%string]%string (trace w a)).
Proof.
  apply (main_wp w a (fun tr o =>
    o = Ret tt ->
    publish_docs a = true
    /\ succeeded ["git"; "checkout"; "-b"; docs_branch w a; release_tag a]%string tr
    /\ succeeded ["./dev/build-docs.sh"]%string tr
    /\ succeeded ["git"; "add"; "-f"; "docs/_site"]%string tr
    /\ succeeded ["git"; "commit"; "-m";
                  Py.percent "Build docs for release %s." [release_version a]]%string tr
    /\ succeeded ["git"; "branch"; "-D"; docs_branch w a]%string tr
    /\ (no_prompt a = true ->
        succeeded ["git"; "push"; git_remote a; docs_branch w a]%string tr
        /\ succeeded ["git"; "push"; "-f"; git_remote a;
                      (docs_branch w a ++ ":gh-pages")%string]%string tr))).
  unfold main. wp_head.
  skip_through_to ltac:(idtac; at_docs_choice).
  destruct (no_prompt a) eqn:Hnp.
  all: explore_all.
  all: intros K; try discriminate K; clear K.
  all: unfold succeeded, docs_branch, release_tag.
  all: split; [ reflexivity | ].
  all: do 5 (split; [ eexists; find_spawn | ]).
  all: intros K; try discriminate K.
  all: split; eexists; find_spawn.
Qed.

Lemma returns_after_docs_witness :
  publish_docs scenario_args = true
  /\ succeeded ["git"; "checkout"; "-b"; docs_branch scenario_world scenario_args;
                release_tag scenario_args]%string (trace scenario_world scenario_args)
  /\ succeeded ["./dev/build-docs.sh"]%string (trace scenario_world scenario_args)
  /\ succeeded ["git"; "add"; "-f"; "docs/_site"]%string (trace scenario_world scenario_args)
  /\ succeeded ["git"; "commit"; "-m";
                Py.percent "Build docs for release %s." [release_version scenario_args]]%string
               (trace scenario_world scenario_args)
  /\ succeeded ["git"; "branch"; "-D"; docs_branch scenario_world scenario_args]%string
               (trace scenario_world scenario_args)
  /\ (no_prompt scenario_args = true ->
      succeeded ["git"; "push"; git_remote scenario_args;
                 docs_branch scenario_world scenario_args]%string
                (trace scenario_world scenario_args)
      /\ succeeded ["git"; "push"; "-f"; git_remote scenario_args;
                    (docs_branch scenario_world scenario_args ++ ":gh-pages")%string]%string
                   (trace scenario_world scenario_args)).
Proof.
  apply (returns_after_docs scenario_world scenario_args).
  vm_compute. reflexivity.
Defined.

(** Find an event in a trace as it is written there. *)
Ltac find_event :=
  lazymatch goal with
  | |- In ?x (?l ++ ?r) =>
      lazymatch l with
      | context [x] => apply in_or_app; left; find_event
      | _ => apply in_or_app; right; find_event
      end
  | |- In ?x (?y :: ?r) =>
      lazymatch y with
      | x => apply in_eq
      | _ => apply in_cons; find_event
      end
  end.

(** A stop with status 1 is not [sys.exit(0)]. *)
Ltac not_exit_0 :=
  let H := fresh in let K := fresh in
  intros ? ? H K; rewrite K in H; discriminate H.

Ltac skip_to_exit_0 stop :=
  repeat (tryif stop then fail else
    (lazymatch goal with
     | |- wp (bind _ _) _ _ _ =>
         apply wp_bind_fatal; [ solve [ends_1] | intros ? ? | not_exit_0 ]
     end; cbv beta iota zeta)).

(** X13: the only [sys.exit(0)] is the one that skips the docs: a run
    that ends by [sys.exit(0)] has announced the docs step, and either
    publish-docs is off or the operator has declined to build the docs. *)
Theorem exit_0_skips_docs (w : World) (a : Args) :
  snd (run w a) = Exit 0%Z ->
  In (Echo (style_underline "Building release docs")) (trace w a)
  /\ (publish_docs a = false \/ In (Confirm docs_prompt (Some false)) (trace w a)).
Proof.
  apply (main_wp w a (fun tr o =>
    o = Exit 0%Z ->
    In (Echo (style_underline "Building release docs")) tr
    /\ (publish_docs a = false \/ In (Confirm docs_prompt (Some false)) tr))).
  unfold main. wp_head.
  skip_to_exit_0 ltac:(idtac; at_echo "Building release docs"%string).
  wp_head. apply wp_bind.
  destruct (publish_docs a) eqn:Hdocs.
  - unfold verify at 1. destruct (negb (negb (no_prompt a))).
    + wp_simple. wp_head.
      apply (wp_ends stops_with_1); [ solve [ends_1] | ].
      intros ev [u|c|x] H K; try discriminate K.
      injection K as ->. discriminate H.
    + apply wp_confirm; [intros [|] | ]; cbv beta iota.
      * wp_head.
        apply (wp_ends stops_with_1); [ solve [ends_1] | ].
        intros ev [u|c|x] H K; try discriminate K.
        injection K as ->. discriminate H.
      * wp_go. intros _. unfold docs_prompt.
        split; [ find_event | right; find_event ].
      * intros K. discriminate K.
  - wp_go. intros _. split; [ find_event | left; reflexivity ].
Qed.

Lemma exit_0_skips_docs_witness :
  In (Echo (style_underline "Building release docs"))
     (trace (clean_master (accepts_all_but docs_prompt)) interactive_args)
  /\ (publish_docs interactive_args = false
      \/ In (Confirm docs_prompt (Some false))
            (trace (clean_master (accepts_all_but docs_prompt)) interactive_args)).
Proof.
  apply (exit_0_skips_docs (clean_master (accepts_all_but docs_prompt)) interactive_args).
  vm_compute. reflexivity.
Defined.

(** ** What a failed build leaves behind *)

Lemma forallb_weaken {A} (p q : A -> bool) (l : list A) :
  (forall x, p x = true -> q x = true) -> forallb p l = true -> forallb q l = true.
Proof.
  intros Hpq. induction l as [|x l IH]; cbn [forallb]; intros H; [reflexivity | ].
  apply andb_prop in H. destruct H as [Hx Hl]. rewrite (Hpq x Hx), (IH Hl). reflexivity.
Qed.

Lemma no_build_keeps (e : event) :
  negb (is_build e) && negb (deletes_branch e) = true -> negb (deletes_branch e) = true.
Proof. intros H. apply andb_prop in H. apply H. Qed.

(** No stretch of the trace deletes a branch: the summarised ones by
    their summary, the builds [ev] of the loop by what they are. *)
Ltac keeps_branches target ev Hev :=
  rewrite ?forallb_app;
  repeat match goal with
         | H : forallb (fun e => negb (is_build e) && negb (deletes_branch e)) ?l = true
           |- context [forallb _ ?l] =>
             rewrite (forallb_weaken _ (fun e => negb (deletes_branch e)) l no_build_keeps H)
         end;
  rewrite (runs_each_all (build_argv target) (fun e => negb (deletes_branch e)) ev _
             (fun _ _ => eq_refl) Hev);
  reflexivity.

(** The failed build [e] is in no stretch without builds, in no stretch
    without failures, and is none of the listed events. *)
Ltac no_failed_build Hin Hp Hf :=
  exfalso; split_in Hin;
  first [ let K := fresh "K" in
          in_summary Hin K; cbv beta in K;
          first [ rewrite Hp in K | rewrite Hf in K ]; discriminate K
        | subst; lazy in Hp; discriminate Hp ].

(** A command before the builds: when it fails, no build has failed. *)
Ltac early_call :=
  apply wp_bind, wp_check_call; [intros ? | intros ? ? ? | ]; cbv beta iota zeta;
  [ | intros Hin Hp Hf; no_failed_build Hin Hp Hf | intros Hin Hp Hf; no_failed_build Hin Hp Hf ].

(** X14: nothing is undone when a build fails: a run in which the build
    for some Spark version failed has created the working branch, run the
    release command and checked out the release tag, each with code 0,
    and has deleted no branch. *)
Theorem failed_build_leaves_branch (w : World) (a : Args) (e : event) :
  In e (trace w a) ->
  is_build e = true ->
  failed_spawn e = true ->
  succeeded ["git"; "checkout"; "-b"; working_branch w a]%string (trace w a)
  /\ succeeded ["./build/sbt"; release_command a]%string (trace w a)
  /\ succeeded ["git"; "checkout"; release_tag a]%string (trace w a)
  /\ forallb (fun e => negb (deletes_branch e)) (trace w a) = true.
Proof.
  apply (main_wp w a (fun tr o =>
    In e tr -> is_build e = true -> failed_spawn e = true ->
    succeeded ["git"; "checkout"; "-b"; working_branch w a]%string tr
    /\ succeeded ["./build/sbt"; release_command a]%string tr
    /\ succeeded ["git"; "checkout"; release_tag a]%string tr
    /\ forallb (fun e => negb (deletes_branch e)) tr = true)).
  unfold main. wp_head.
  skip_to (fun e => negb (is_build e) && negb (deletes_branch e))
          ltac:(idtac; at_any_call)
          ltac:(idtac; intros Hin Hp Hf; no_failed_build Hin Hp Hf).
  early_call.
  wp_skip (fun e => negb (is_build e) && negb (deletes_branch e));
    [ | intros Hin Hp Hf; no_failed_build Hin Hp Hf ].
  early_call.
  wp_skip (fun e => negb (is_build e) && negb (deletes_branch e));
    [ | intros Hin Hp Hf; no_failed_build Hin Hp Hf ].
  early_call.
  apply wp_bind. unfold getitem.
  destruct (dict_get PUBLISH_MODES (publish_to a)) as [target|]; wp_simple;
    [ | intros Hin Hp Hf; no_failed_build Hin Hp Hf ].
  apply wp_bind. apply (wp_for_each_runs (build_argv target)).
  - intros ev Hev Hclean. cbv beta iota. unfold clean in Hclean.
    wp_rest (fun e => negb (is_build e)).
    intros Hin Hp Hf. no_failed_build Hin Hp Hf.
  - intros ev n x Hev _ _ _.
    unfold succeeded, working_branch, release_command, release_tag.
    split; [ eexists; find_spawn | ].
    split; [ eexists; find_spawn | ].
    split; [ eexists; find_spawn | ].
    keeps_branches target ev Hev.
Qed.

Lemma failed_build_leaves_branch_witness :
  succeeded ["git"; "checkout"; "-b";
             working_branch (breaking (build_argv "publishLocal" "3.1.3") 1%Z scenario_world)
                            scenario_args]%string
            (trace (breaking (build_argv "publishLocal" "3.1.3") 1%Z scenario_world)
                   scenario_args)
  /\ succeeded ["./build/sbt"; release_command scenario_args]%string
               (trace (breaking (build_argv "publishLocal" "3.1.3") 1%Z scenario_world)
                      scenario_args)
  /\ succeeded ["git"; "checkout"; release_tag scenario_args]%string
               (trace (breaking (build_argv "publishLocal" "3.1.3") 1%Z scenario_world)
                      scenario_args)
  /\ forallb (fun e => negb (deletes_branch e))
             (trace (breaking (build_argv "publishLocal" "3.1.3") 1%Z scenario_world)
                    scenario_args) = true.
Proof.
  apply (failed_build_leaves_branch
           (breaking (build_argv "publishLocal" "3.1.3") 1%Z scenario_world) scenario_args
           (Spawn (build_argv "publishLocal" "3.1.3") (Some (1%Z, ""%string)))).
  - pick.
  - reflexivity.
  - reflexivity.
Defined.

(** ** The report of a tag conflict *)

Lemma tag_conflict_text (rv : string) (existing : list string) :
  list_in (Py.percent RELEASE_TAG [rv]) existing = true ->
  Py.percent ("The following tags already exist:" ++ Py.nl ++
              "    %s" ++ Py.nl ++
              "Please delete them and try.")%string
             [Py.join (Py.nl ++ "    ")%string
                (filter (fun t => list_in t existing) [Py.percent RELEASE_TAG [rv]])]
  = ("The following tags already exist:" ++ Py.nl ++
     "    " ++ Py.percent RELEASE_TAG [rv] ++ Py.nl ++
     "Please delete them and try.")%string.
Proof. intros H. cbn [filter]. rewrite H. reflexivity. Qed.

(** Cut a trace before its last event. *)
Ltac cut_before_last :=
  lazymatch goal with
  | |- ?a ++ (?b ++ ?t) = _ => apply cut_here; cut_before_last
  | |- _ => apply cut_end
  end.

(** X15: a tag conflict is reported by name: when the release tag is
    among the tags that [git tag] lists, the last thing the run does
    before it exits is to print that the tag already exists, naming it. *)
Theorem tag_conflict_reported (w : World) (a : Args) (out : string) (tags : list string) :
  In (Spawn git_tag (Some (0%Z, out))) (trace w a) ->
  known_tags out = Some tags ->
  In (release_tag a) tags ->
  exists pre, trace w a = pre ++ [Echo (style_underline (tag_conflict_message a))].
Proof.
  apply (main_wp w a (fun tr o =>
    In (Spawn git_tag (Some (0%Z, out))) tr -> known_tags out = Some tags ->
    In (release_tag a) tags ->
    exists pre, tr = pre ++ [Echo (style_underline (tag_conflict_message a))])).
  unfold main.
  skip_to (fun e => negb (spawns git_tag e)) ltac:(idtac; at_output ["git"; "tag"]%string)
          ltac:(idtac; intros Hin _ _; absent Hin).
  apply wp_bind, wp_check_output; [intros out2 | intros rc2 out2 Hrc | ]; cbv beta iota.
  - apply wp_bind. unfold decode at 1. destruct (Py.decode out2) as [s|] eqn:Hdec.
    + wp_prim. apply wp_bind. unfold when at 1.
      destruct (negb (Datatypes.length
                 (filter (fun t => list_in t (Py.split s))
                         [Py.percent RELEASE_TAG [release_version a]]) =? 0)%nat) eqn:Hconf.
      * wp_go. intros _ _ _.
        rewrite (tag_conflict_text _ _ (conflict_in _ _ Hconf)).
        unfold tag_conflict_message, release_tag.
        eexists. cut_before_last.
      * wp_prim. wp_rest (fun e => negb (spawns git_tag e)).
        intros Hin Hknown Htag. exfalso. split_in Hin; try excluded Hin.
        injection Hin as Hout. subst out2.
        unfold known_tags in Hknown. rewrite Hdec in Hknown.
        injection Hknown as Hknown. subst tags.
        apply list_in_true in Htag. unfold release_tag in Htag.
        cbn [filter] in Hconf. rewrite Htag in Hconf. discriminate Hconf.
    + wp_go. intros Hin Hknown _. exfalso. split_in Hin; try excluded Hin.
      injection Hin as Hout. subst out2.
      unfold known_tags in Hknown. rewrite Hdec in Hknown. discriminate Hknown.
  - intros Hin _ _. exfalso. split_in Hin; try excluded Hin.
    injection Hin as Hz _. apply Hrc. exact Hz.
  - intros Hin _ _. absent Hin.
Qed.

Lemma tag_conflict_reported_witness :
  exists pre,
    trace tagged_world scenario_args
    = pre ++ [Echo (style_underline (tag_conflict_message scenario_args))].
Proof.
  apply (tag_conflict_reported tagged_world scenario_args
           ("v1.2.2" ++ Py.nl ++ "v1.2.3" ++ Py.nl)%string ["v1.2.2"; "v1.2.3"]%string).
  - pick.
  - reflexivity.
  - pick.
Defined.
